(** * AGXCL Python SDK: client and contract helpers

    A shallow embedding of [agxcl_sdk/client.py] and
    [agxcl_sdk/contracts.py].  The SDK is request/response glue over an
    HTTP session, so the embedding is a state-and-exception monad over
    the objects the code touches (the configuration object the client
    references and the session's log of issued requests), with the
    remote service as an arbitrary function of the request history. *)

From Stdlib Require Import String Ascii List ZArith DecimalString Lia.
Import ListNotations.
Open Scope string_scope.
Open Scope Z_scope.
Set Warnings "-register-all".

(** ** Python values and exceptions *)

(** The values that cross the JSON boundary ([Any] in the annotations).
    A [PyDict] lists the items of the dictionary, one binding per key. *)
Inductive PyVal : Type :=
| PyNone
| PyBool (b : bool)
| PyInt (n : Z)
| PyStr (s : string)
| PyList (l : list PyVal)
| PyDict (items : list (string * PyVal)).

(** Python truthiness, as used by [if not x]. *)
Definition truthy (v : PyVal) : bool :=
  match v with
  | PyNone => false
  | PyBool b => b
  | PyInt n => negb (n =? 0)
  | PyStr s => negb (s =? EmptyString)%string
  | PyList l => match l with [] => false | _ => true end
  | PyDict d => match d with [] => false | _ => true end
  end.

(** [Optional[str]] seen as a value. *)
Definition of_optional (o : option string) : PyVal :=
  match o with
  | None => PyNone
  | Some s => PyStr s
  end.

(** Instances of (subclasses of) [Exception]: the class and the text
    [str(e)].  Interrupts, which sit outside [Exception], are not
    behaviours of the transport and are not modelled. *)
Inductive ExnClass : Type :=
| RuntimeError
| KeyError
| TypeError
| OtherException (name : string).

Record Exn : Type := mkExn { exn_class : ExnClass; exn_text : string }.

Definition dq : string := String (ascii_of_nat 34) EmptyString.
Definition sq : string := String (ascii_of_nat 39) EmptyString.
Definition nl : string := String (ascii_of_nat 10) EmptyString.

(** [str(KeyError(k))] is [repr(k)]; the keys used here are plain
    identifiers, whose [repr] is the key between single quotes. *)
Definition key_error (k : string) : Exn := mkExn KeyError (sq ++ k ++ sq).

Fixpoint dict_get (items : list (string * PyVal)) (k : string) : option PyVal :=
  match items with
  | [] => None
  | (k', v) :: rest => if (k' =? k)%string then Some v else dict_get rest k
  end.

(** [d[k]] for a string key [k]: a lookup on a dictionary, [KeyError]
    when the key is absent, [TypeError] on anything that is not a
    dictionary (messages as CPython words them). *)
Definition getitem (d : PyVal) (k : string) : Exn + PyVal :=
  match d with
  | PyDict items =>
      match dict_get items k with
      | Some v => inr v
      | None => inl (key_error k)
      end
  | PyList _ => inl (mkExn TypeError "list indices must be integers or slices, not str")
  | PyStr _ => inl (mkExn TypeError "string indices must be integers, not 'str'")
  | PyNone => inl (mkExn TypeError "'NoneType' object is not subscriptable")
  | PyBool _ => inl (mkExn TypeError "'bool' object is not subscriptable")
  | PyInt _ => inl (mkExn TypeError "'int' object is not subscriptable")
  end.

(** ** Data records of client.py *)

(** [@dataclass class AgefixConfig] *)
Record AgefixConfig : Type := mkAgefixConfig {
  rpc_url : string;
  chain_id : string;
  private_key : option string
}.

(** [@dataclass class ContractDeployment].  The fields are filled from
    the decoded response without validation, hence [PyVal]. *)
Record ContractDeployment : Type := mkContractDeployment {
  contract_address : PyVal;
  transaction_hash : PyVal;
  block_number : PyVal
}.

(** [@dataclass class QueryResult] *)
Record QueryResult : Type := mkQueryResult {
  success : bool;
  data : PyVal;
  error : option string
}.

(** [@dataclass class TransactionResult] *)
Record TransactionResult : Type := mkTransactionResult {
  tx_hash : PyVal;
  tx_block_number : PyVal;
  gas_used : PyVal;
  tx_success : bool
}.

(** ** The HTTP session *)

Inductive Verb : Type := GET | POST.

Record Request : Type := mkRequest {
  req_verb : Verb;
  req_url : string;
  req_json : option PyVal;
  req_headers : list (string * string);
  req_timeout : Z
}.

(** What the code does with a response object: [raise_for_status()]
    returns or raises, [json()] returns the decoded body or raises. *)
Record Response : Type := mkResponse {
  raise_for_status : option Exn;
  json : Exn + PyVal
}.

(** The text of the [HTTPError] that the requests library raises from
    [raise_for_status]: the status in decimal, "Client Error" below 500
    and "Server Error" from 500, the reason phrase and the URL. *)
Definition http_error_text (status : Z) (reason url : string) : string :=
  NilZero.string_of_int (Z.to_int status) ++
  (if status <? 500 then " Client Error: " else " Server Error: ") ++
  reason ++ " for url: " ++ url.

(** A response as the requests library builds it for a status line and
    a body: its [raise_for_status] raises for a status from 400 to 599
    and returns for every other status, 1xx and 3xx included. *)
Definition http_response (status : Z) (reason url : string) (body : Exn + PyVal)
  : Response :=
  mkResponse
    (if ((400 <=? status) && (status <? 600))%bool
     then Some (mkExn (OtherException "HTTPError") (http_error_text status reason url))
     else None)
    body.

(** The remote side: given the requests issued so far and the current
    one, the call raises or yields a response. *)
Definition Transport : Type := list Request -> Request -> Exn + Response.

(** The objects an [AgefixClient] reaches: the configuration object it
    keeps a reference to (shared with whoever built it), and its
    session (headers, and the requests attempted so far, oldest first). *)
Record World : Type := mkWorld {
  config : AgefixConfig;
  session_headers : list (string * string);
  sent : list Request
}.

(** ** Computations: state that survives a raised exception *)

Inductive Result (A : Type) : Type :=
| Ok (a : A)
| Raise (e : Exn).
Arguments Ok {A} a.
Arguments Raise {A} e.

Definition M (A : Type) : Type := World -> Result A * World.

Definition ret {A} (a : A) : M A := fun w => (Ok a, w).

Definition raise {A} (e : Exn) : M A := fun w => (Raise e, w).

Definition bind {A B} (c : M A) (k : A -> M B) : M B :=
  fun w =>
    match c w with
    | (Ok a, w') => k a w'
    | (Raise e, w') => (Raise e, w')
    end.

(** [try: body except Exception as e: handler(e)] *)
Definition try_except {A} (body : M A) (handler : Exn -> M A) : M A :=
  fun w =>
    match body w with
    | (Ok a, w') => (Ok a, w')
    | (Raise e, w') => handler e w'
    end.

Definition of_sum {A} (r : Exn + A) : M A :=
  match r with
  | inl e => raise e
  | inr a => ret a
  end.

Definition read_config : M AgefixConfig := fun w => (Ok (config w), w).

Declare Scope py_scope.
Delimit Scope py_scope with py.
Notation "x <- c ;; k" := (bind c (fun x => k))
  (at level 61, c at next level, right associativity) : py_scope.
Notation "c ;;; k" := (bind c (fun _ => k))
  (at level 61, right associativity) : py_scope.
Open Scope py_scope.

(** [RuntimeError(msg)] *)
Definition runtime_error (msg : string) : Exn := mkExn RuntimeError msg.

(** Assignment to an attribute of the configuration object.  The class
    is declared with a bare [@dataclass], which generates no guard on
    assignment, so these are ordinary stores. *)
Definition set_rpc_url (v : string) : M unit :=
  fun w =>
    (Ok tt, mkWorld (mkAgefixConfig v (chain_id (config w)) (private_key (config w)))
                    (session_headers w) (sent w)).

Definition set_chain_id (v : string) : M unit :=
  fun w =>
    (Ok tt, mkWorld (mkAgefixConfig (rpc_url (config w)) v (private_key (config w)))
                    (session_headers w) (sent w)).

Definition set_private_key (v : option string) : M unit :=
  fun w =>
    (Ok tt, mkWorld (mkAgefixConfig (rpc_url (config w)) (chain_id (config w)) v)
                    (session_headers w) (sent w)).

(** [str.lower()] on the ASCII letters, which is what header names are
    made of. *)
Definition ascii_lower (c : ascii) : ascii :=
  let n := nat_of_ascii c in
  if ((65 <=? n)%nat && (n <=? 90)%nat)%bool then ascii_of_nat (n + 32) else c.

Fixpoint lower (s : string) : string :=
  match s with
  | EmptyString => EmptyString
  | String c rest => String (ascii_lower c) (lower rest)
  end.


(** [headers.update({k: v})]: an entry under the same key, whatever its
    case, is replaced where it stands; otherwise the entry is added at
    the end. *)
Fixpoint header_set (hs : list (string * string)) (k v : string)
  : list (string * string) :=
  match hs with
  | [] => [(k, v)]
  | (k', v') :: rest =>
      if (lower k' =? lower k)%string then (k, v) :: rest
      else (k', v') :: header_set rest k v
  end.

(** [AgefixClient.__init__]: keep the reference to [config], open a
    session and set its content type.  [defaults] are the headers a new
    [requests.Session] starts with (User-Agent, Accept-Encoding, Accept,
    Connection), whose values depend on the installed library. *)
Definition AgefixClient_init (defaults : list (string * string))
    (cfg : AgefixConfig) : World :=
  mkWorld cfg (header_set defaults "Content-Type" "application/json") [].

Section Client.

Variable net : Transport.

(** One attempt on the wire: the request is logged whether or not the
    call then raises. *)
Definition session_send (r : Request) : M Response :=
  fun w =>
    let w' := mkWorld (config w) (session_headers w) (sent w ++ [r])%list in
    match net (sent w) r with
    | inl e => (Raise e, w')
    | inr resp => (Ok resp, w')
    end.

(** [self.session.post(url, json=payload, timeout=t)] *)
Definition session_post (url : string) (payload : PyVal) (t : Z) : M Response :=
  fun w => session_send (mkRequest POST url (Some payload) (session_headers w) t) w.

(** [self.session.get(url, timeout=t)] *)
Definition session_get (url : string) (t : Z) : M Response :=
  fun w => session_send (mkRequest GET url None (session_headers w) t) w.

(** [response.raise_for_status()] *)
Definition check_status (response : Response) : M unit :=
  match raise_for_status response with
  | Some e => raise e
  | None => ret tt
  end.

(** [args = [] if args is None] *)
Definition default_args (args : option (list PyVal)) : list PyVal :=
  match args with
  | None => []
  | Some a => a
  end.

Definition deploy_contract (contract_code : string)
    (constructor_args : option (list PyVal)) : M ContractDeployment :=
  let constructor_args := default_args constructor_args in
  try_except
    (cfg <- read_config ;;
     response <- session_post (rpc_url cfg ++ "/deploy")
       (PyDict [("code", PyStr contract_code);
                ("args", PyList constructor_args);
                ("chainId", PyStr (chain_id cfg));
                ("privateKey", of_optional (private_key cfg))]) 30 ;;
     check_status response ;;;
     data <- of_sum (json response) ;;
     a <- of_sum (getitem data "contractAddress") ;;
     h <- of_sum (getitem data "txHash") ;;
     b <- of_sum (getitem data "blockNumber") ;;
     ret (mkContractDeployment a h b))
    (fun e => raise (runtime_error ("Contract deployment failed: " ++ exn_text e))).

Definition query_contract (contract_address : PyVal) (method : string)
    (args : option (list PyVal)) : M QueryResult :=
  let args := default_args args in
  try_except
    (cfg <- read_config ;;
     response <- session_post (rpc_url cfg ++ "/query")
       (PyDict [("contractAddress", contract_address);
                ("method", PyStr method);
                ("args", PyList args);
                ("chainId", PyStr (chain_id cfg))]) 30 ;;
     check_status response ;;;
     data <- of_sum (json response) ;;
     r <- of_sum (getitem data "result") ;;
     ret (mkQueryResult true r None))
    (fun e => ret (mkQueryResult false PyNone (Some (exn_text e)))).

Definition execute_transaction (contract_address : PyVal) (method : string)
    (args : option (list PyVal)) (value : string) : M TransactionResult :=
  cfg0 <- read_config ;;
  if negb (truthy (of_optional (private_key cfg0))) then
    raise (runtime_error "Private key required for transactions")
  else
    let args := default_args args in
    try_except
      (cfg <- read_config ;;
       response <- session_post (rpc_url cfg ++ "/execute")
         (PyDict [("contractAddress", contract_address);
                  ("method", PyStr method);
                  ("args", PyList args);
                  ("value", PyStr value);
                  ("chainId", PyStr (chain_id cfg));
                  ("privateKey", of_optional (private_key cfg))]) 30 ;;
       check_status response ;;;
       data <- of_sum (json response) ;;
       h <- of_sum (getitem data "txHash") ;;
       b <- of_sum (getitem data "blockNumber") ;;
       g <- of_sum (getitem data "gasUsed") ;;
       ret (mkTransactionResult h b g true))
      (fun e => raise (runtime_error ("Transaction execution failed: " ++ exn_text e))).

Definition get_transaction_receipt (tx_hash : string) : M PyVal :=
  try_except
    (cfg <- read_config ;;
     response <- session_get (rpc_url cfg ++ "/tx/" ++ tx_hash) 30 ;;
     check_status response ;;;
     of_sum (json response))
    (fun e => raise (runtime_error ("Failed to get transaction receipt: " ++ exn_text e))).

Definition get_balance (address : string) : M PyVal :=
  try_except
    (cfg <- read_config ;;
     response <- session_get (rpc_url cfg ++ "/balance/" ++ address) 30 ;;
     check_status response ;;;
     data <- of_sum (json response) ;;
     of_sum (getitem data "balance"))
    (fun e => raise (runtime_error ("Failed to get balance: " ++ exn_text e))).

Definition estimate_gas (contract_address : PyVal) (method : string)
    (args : option (list PyVal)) : M PyVal :=
  let args := default_args args in
  try_except
    (cfg <- read_config ;;
     response <- session_post (rpc_url cfg ++ "/estimateGas")
       (PyDict [("contractAddress", contract_address);
                ("method", PyStr method);
                ("args", PyList args);
                ("chainId", PyStr (chain_id cfg))]) 30 ;;
     check_status response ;;;
     data <- of_sum (json response) ;;
     of_sum (getitem data "gasEstimate"))
    (fun e => raise (runtime_error ("Failed to estimate gas: " ++ exn_text e))).

End Client.

(** ** Contract helpers of contracts.py *)

(** A helper object holds a reference to the client (the [World] the
    computations run in) and its own [contract_address], [None] until
    one is given or a deployment stores one.  A method that assigns the
    attribute returns the updated object next to its result; when the
    method raises, the object is as it was. *)

Module TokenContract.

Definition deployed_address (d : ContractDeployment) : PyVal := contract_address d.

Record t : Type := mk { contract_address : PyVal }.

(** [TokenContract(client, contract_address=None)] *)
Definition init (contract_address : option string) : t :=
  mk (of_optional contract_address).

(** The f-string of [deploy], braces undoubled. *)
Definition token_code (name symbol total_supply : string) : string :=
  String.concat nl
    [ EmptyString;
      "contract Token {";
      "  state {";
      "    string name = " ++ dq ++ name ++ dq ++ ";";
      "    string symbol = " ++ dq ++ symbol ++ dq ++ ";";
      "    uint256 totalSupply = " ++ total_supply ++ ";";
      "    mapping(address => uint256) balances;";
      "    mapping(address => mapping(address => uint256)) allowances;";
      "  }";
      EmptyString;
      "  constructor() {";
      "    balances[msg.sender] = totalSupply;";
      "  }";
      EmptyString;
      "  function balanceOf(address account) public view returns (uint256) {";
      "    return balances[account];";
      "  }";
      EmptyString;
      "  function transfer(address to, uint256 amount) public returns (bool) {";
      "    require(balances[msg.sender] >= amount, " ++ dq ++ "Insufficient balance" ++ dq ++ ");";
      "    balances[msg.sender] -= amount;";
      "    balances[to] += amount;";
      "    emit Transfer(msg.sender, to, amount);";
      "    return true;";
      "  }";
      EmptyString;
      "  function approve(address spender, uint256 amount) public returns (bool) {";
      "    allowances[msg.sender][spender] = amount;";
      "    emit Approval(msg.sender, spender, amount);";
      "    return true;";
      "  }";
      EmptyString;
      "  function transferFrom(address from, address to, uint256 amount) public returns (bool) {";
      "    require(balances[from] >= amount, " ++ dq ++ "Insufficient balance" ++ dq ++ ");";
      "    require(allowances[from][msg.sender] >= amount, " ++ dq ++ "Insufficient allowance" ++ dq ++ ");";
      "    balances[from] -= amount;";
      "    balances[to] += amount;";
      "    allowances[from][msg.sender] -= amount;";
      "    emit Transfer(from, to, amount);";
      "    return true;";
      "  }";
      EmptyString;
      "  event Transfer(address indexed from, address indexed to, uint256 value);";
      "  event Approval(address indexed owner, address indexed spender, uint256 value);";
      "}";
      "        " ].

Section Methods.

Variable net : Transport.

Definition deploy (self : t) (name symbol total_supply : string)
  : M (ContractDeployment * t) :=
  deployment <- deploy_contract net (token_code name symbol total_supply) None ;;
  ret (deployment, mk (deployed_address deployment)).

Definition balance_of (self : t) (address : string) : M PyVal :=
  if negb (truthy (contract_address self)) then
    raise (runtime_error "Contract not deployed")
  else
    result <- query_contract net (contract_address self) "balanceOf"
                (Some [PyStr address]) ;;
    ret (data result).

Definition transfer (self : t) (to amount : string) : M TransactionResult :=
  if negb (truthy (contract_address self)) then
    raise (runtime_error "Contract not deployed")
  else
    execute_transaction net (contract_address self) "transfer"
      (Some [PyStr to; PyStr amount]) "0".

Definition approve (self : t) (spender amount : string) : M TransactionResult :=
  if negb (truthy (contract_address self)) then
    raise (runtime_error "Contract not deployed")
  else
    execute_transaction net (contract_address self) "approve"
      (Some [PyStr spender; PyStr amount]) "0".

End Methods.

End TokenContract.

Module NFTContract.

Definition deployed_address (d : ContractDeployment) : PyVal := contract_address d.

Record t : Type := mk { contract_address : PyVal }.

(** [NFTContract(client, contract_address=None)] *)
Definition init (contract_address : option string) : t :=
  mk (of_optional contract_address).

(** The f-string of [deploy], braces undoubled. *)
Definition nft_code (name symbol : string) : string :=
  String.concat nl
    [ EmptyString;
      "contract NFT {";
      "  state {";
      "    string name = " ++ dq ++ name ++ dq ++ ";";
      "    string symbol = " ++ dq ++ symbol ++ dq ++ ";";
      "    uint256 nextTokenId = 1;";
      "    mapping(uint256 => address) owners;";
      "    mapping(uint256 => string) tokenURIs;";
      "    mapping(address => uint256) balances;";
      "  }";
      EmptyString;
      "  function mint(address to, string memory uri) public returns (uint256) {";
      "    uint256 tokenId = nextTokenId++;";
      "    owners[tokenId] = to;";
      "    tokenURIs[tokenId] = uri;";
      "    balances[to]++;";
      "    emit Mint(to, tokenId, uri);";
      "    return tokenId;";
      "  }";
      EmptyString;
      "  function ownerOf(uint256 tokenId) public view returns (address) {";
      "    return owners[tokenId];";
      "  }";
      EmptyString;
      "  function tokenURI(uint256 tokenId) public view returns (string memory) {";
      "    return tokenURIs[tokenId];";
      "  }";
      EmptyString;
      "  function balanceOf(address owner) public view returns (uint256) {";
      "    return balances[owner];";
      "  }";
      EmptyString;
      "  event Mint(address indexed to, uint256 indexed tokenId, string uri);";
      "}";
      "        " ].

Section Methods.

Variable net : Transport.

Definition deploy (self : t) (name symbol : string)
  : M (ContractDeployment * t) :=
  deployment <- deploy_contract net (nft_code name symbol) None ;;
  ret (deployment, mk (deployed_address deployment)).

Definition mint (self : t) (to uri : string) : M TransactionResult :=
  if negb (truthy (contract_address self)) then
    raise (runtime_error "Contract not deployed")
  else
    execute_transaction net (contract_address self) "mint"
      (Some [PyStr to; PyStr uri]) "0".

Definition owner_of (self : t) (token_id : Z) : M PyVal :=
  if negb (truthy (contract_address self)) then
    raise (runtime_error "Contract not deployed")
  else
    result <- query_contract net (contract_address self) "ownerOf"
                (Some [PyInt token_id]) ;;
    ret (data result).

End Methods.

End NFTContract.

(** ** Vocabulary for the statements *)

(** The world after one more request has gone out. *)
Definition log_request (w : World) (r : Request) : World :=
  mkWorld (config w) (session_headers w) (sent w ++ [r])%list.

(** The requests the six operations put on the wire in world [w]. *)
Definition deploy_request (w : World) (contract_code : string)
    (constructor_args : option (list PyVal)) : Request :=
  mkRequest POST (rpc_url (config w) ++ "/deploy")
    (Some (PyDict [("code", PyStr contract_code);
                   ("args", PyList (default_args constructor_args));
                   ("chainId", PyStr (chain_id (config w)));
                   ("privateKey", of_optional (private_key (config w)))]))
    (session_headers w) 30.

Definition query_request (w : World) (contract_address : PyVal) (method : string)
    (args : option (list PyVal)) : Request :=
  mkRequest POST (rpc_url (config w) ++ "/query")
    (Some (PyDict [("contractAddress", contract_address);
                   ("method", PyStr method);
                   ("args", PyList (default_args args));
                   ("chainId", PyStr (chain_id (config w)))]))
    (session_headers w) 30.

Definition execute_request (w : World) (contract_address : PyVal) (method : string)
    (args : option (list PyVal)) (value : string) : Request :=
  mkRequest POST (rpc_url (config w) ++ "/execute")
    (Some (PyDict [("contractAddress", contract_address);
                   ("method", PyStr method);
                   ("args", PyList (default_args args));
                   ("value", PyStr value);
                   ("chainId", PyStr (chain_id (config w)));
                   ("privateKey", of_optional (private_key (config w)))]))
    (session_headers w) 30.

Definition receipt_request (w : World) (tx_hash : string) : Request :=
  mkRequest GET (rpc_url (config w) ++ "/tx/" ++ tx_hash) None (session_headers w) 30.

Definition balance_request (w : World) (address : string) : Request :=
  mkRequest GET (rpc_url (config w) ++ "/balance/" ++ address) None (session_headers w) 30.

Definition estimate_request (w : World) (contract_address : PyVal) (method : string)
    (args : option (list PyVal)) : Request :=
  mkRequest POST (rpc_url (config w) ++ "/estimateGas")
    (Some (PyDict [("contractAddress", contract_address);
                   ("method", PyStr method);
                   ("args", PyList (default_args args));
                   ("chainId", PyStr (chain_id (config w)))]))
    (session_headers w) 30.

(** The contract a request is aimed at: the [contractAddress] entry of
    its JSON payload. *)
Definition target (r : Request) : option PyVal :=
  match req_json r with
  | Some (PyDict items) => dict_get items "contractAddress"
  | _ => None
  end.

(** The first exception met while reading [fields], in order, off a
    decoded body. *)
Fixpoint field_failure (d : PyVal) (fields : list string) : option Exn :=
  match fields with
  | [] => None
  | f :: rest =>
      match getitem d f with
      | inl e => Some e
      | inr _ => field_failure d rest
      end
  end.

(** The failure, if any, of one round trip that reads [fields] from the
    reply: the transport raised, the status check raised, the body did
    not decode, or a field could not be read. *)
Definition failure (fields : list string) (o : Exn + Response) : option Exn :=
  match o with
  | inl e => Some e
  | inr resp =>
      match raise_for_status resp with
      | Some e => Some e
      | None =>
          match json resp with
          | inl e => Some e
          | inr d => field_failure d fields
          end
      end
  end.

(** The decoded body of a reply that came back, passed the status
    check and decoded. *)
Definition reply_body (o : Exn + Response) : option PyVal :=
  match o with
  | inl _ => None
  | inr resp =>
      match raise_for_status resp with
      | Some _ => None
      | None =>
          match json resp with
          | inl _ => None
          | inr d => Some d
          end
      end
  end.

(** Between [w] and [w'] at most one request went out, and it was
    aimed at contract [a]. *)
Definition aimed_at (a : PyVal) (w w' : World) : Prop :=
  w' = w \/ exists r, w' = log_request w r /\ target r = Some a.

(** The exception a run ended with, if it raised. *)
Definition raised {A} (r : Result A * World) : option Exn :=
  match fst r with
  | Ok _ => None
  | Raise e => Some e
  end.

(** The five operations that report failure by raising, with their
    arguments. *)
Inductive RaisingCall : Type :=
| Deploy (contract_code : string) (constructor_args : option (list PyVal))
| Execute (contract_address : PyVal) (method : string)
          (args : option (list PyVal)) (value : string)
| Receipt (tx_hash : string)
| Balance (address : string)
| EstimateGas (contract_address : PyVal) (method : string)
              (args : option (list PyVal)).

Definition call_raised (net : Transport) (c : RaisingCall) (w : World)
  : option Exn * World :=
  match c with
  | Deploy code args =>
      let r := deploy_contract net code args w in (raised r, snd r)
  | Execute a m args v =>
      let r := execute_transaction net a m args v w in (raised r, snd r)
  | Receipt h =>
      let r := get_transaction_receipt net h w in (raised r, snd r)
  | Balance a =>
      let r := get_balance net a w in (raised r, snd r)
  | EstimateGas a m args =>
      let r := estimate_gas net a m args w in (raised r, snd r)
  end.

Definition call_request (c : RaisingCall) (w : World) : Request :=
  match c with
  | Deploy code args => deploy_request w code args
  | Execute a m args v => execute_request w a m args v
  | Receipt h => receipt_request w h
  | Balance a => balance_request w a
  | EstimateGas a m args => estimate_request w a m args
  end.

(** The response fields each operation reads, in the order it reads
    them; the receipt is returned whole. *)
Definition call_fields (c : RaisingCall) : list string :=
  match c with
  | Deploy _ _ => ["contractAddress"; "txHash"; "blockNumber"]
  | Execute _ _ _ _ => ["txHash"; "blockNumber"; "gasUsed"]
  | Receipt _ => []
  | Balance _ => ["balance"]
  | EstimateGas _ _ _ => ["gasEstimate"]
  end.

(** The text each operation puts before the caught exception's. *)
Definition call_prefix (c : RaisingCall) : string :=
  match c with
  | Deploy _ _ => "Contract deployment failed: "
  | Execute _ _ _ _ => "Transaction execution failed: "
  | Receipt _ => "Failed to get transaction receipt: "
  | Balance _ => "Failed to get balance: "
  | EstimateGas _ _ _ => "Failed to estimate gas: "
  end.

(** The local precondition of a call: only [execute_transaction] has
    one, a configured signing key. *)
Definition call_ready (c : RaisingCall) (w : World) : bool :=
  match c with
  | Execute _ _ _ _ => truthy (of_optional (private_key (config w)))
  | _ => true
  end.

(** A transport on which every call fails with the same exception. *)
Definition always_raises (e : Exn) : Transport := fun _ _ => inl e.

(** A transport that answers every call with the same response. *)
Definition always_answers (resp : Response) : Transport := fun _ _ => inr resp.

(** A transport that answers every call with a good status and body [d]. *)
Definition always_replies (d : PyVal) : Transport :=
  fun _ _ => inr (mkResponse None (inr d)).

(** The three scripted replies of the scenarios. *)
Definition deploy_reply : PyVal :=
  PyDict [("contractAddress", PyStr "0xabc"); ("txHash", PyStr "0x1");
          ("blockNumber", PyInt 10)].

Definition query_reply : PyVal := PyDict [("result", PyStr "500")].

Definition execute_reply : PyVal :=
  PyDict [("txHash", PyStr "0x2"); ("blockNumber", PyInt 11);
          ("gasUsed", PyInt 21000)].

(** Sample configurations and worlds for the concrete runs. *)
Definition keyless_config : AgefixConfig :=
  mkAgefixConfig "https://rpc.agefix.com" "agefix-mainnet-1" None.

Definition signing_config : AgefixConfig :=
  mkAgefixConfig "https://rpc.agefix.com" "agefix-mainnet-1" (Some "your_private_key").

(** The headers of a new session, as one installation has them. *)
Definition sample_default_headers : list (string * string) :=
  [("User-Agent", "python-requests/2.32.3");
   ("Accept-Encoding", "gzip, deflate");
   ("Accept", "*/*");
   ("Connection", "keep-alive")].

Definition keyless_world : World :=
  AgefixClient_init sample_default_headers keyless_config.

Definition signing_world : World :=
  AgefixClient_init sample_default_headers signing_config.

(** ** Vocabulary for sequences of calls and for replies *)

(** Any of the six client operations, with its arguments. *)
Inductive ClientCall : Type :=
| Raising (c : RaisingCall)
| Query (contract_address : PyVal) (method : string) (args : option (list PyVal)).

(** The world after one call, whatever it returned or raised. *)
Definition perform (net : Transport) (c : ClientCall) (w : World) : World :=
  match c with
  | Raising c => snd (call_raised net c w)
  | Query a m args => snd (query_contract net a m args w)
  end.

(** The world after a sequence of calls, one after the other. *)
Definition perform_all (net : Transport) (calls : list ClientCall) (w : World) : World :=
  fold_left (fun w c => perform net c w) calls w.

Definition request_of (c : ClientCall) (w : World) : Request :=
  match c with
  | Raising c => call_request c w
  | Query a m args => query_request w a m args
  end.

(** Whether a call gets as far as the session in world [w]. *)
Definition reaches_wire (w : World) (c : ClientCall) : bool :=
  match c with
  | Raising c => call_ready c w
  | Query _ _ _ => true
  end.

(** The calls whose payload has a [privateKey] entry. *)
Definition signs (c : ClientCall) : bool :=
  match c with
  | Raising (Deploy _ _) => true
  | Raising (Execute _ _ _ _) => true
  | _ => false
  end.

(** The [privateKey] entry of a request's JSON payload, if any. *)
Definition key_entry (r : Request) : option PyVal :=
  match req_json r with
  | Some (PyDict items) => dict_get items "privateKey"
  | _ => None
  end.


(** The first of [fields], in order, that a dictionary lacks. *)
Fixpoint first_missing (items : list (string * PyVal)) (fields : list string)
  : option string :=
  match fields with
  | [] => None
  | f :: rest =>
      match dict_get items f with
      | None => Some f
      | Some _ => first_missing items rest
      end
  end.

(** The text between the [name] and [symbol] parameters in both
    contract templates. *)
Definition name_symbol_gap : string :=
  dq ++ ";" ++ nl ++ "    string symbol = " ++ dq.

(** A transport that plays back a script: the n-th call is answered
    with the n-th body, with a good status; past the end of the script
    the connection fails. *)
Definition scripted (bodies : list PyVal) : Transport :=
  fun history _ =>
    match nth_error bodies (length history) with
    | Some d => inr (mkResponse None (inr d))
    | None => inl (mkExn (OtherException "ConnectionError") "no reply scripted")
    end.

(** * Properties *)

(** ** Running one operation *)

Ltac unfold_client :=
  unfold deploy_contract, query_contract, execute_transaction,
    get_transaction_receipt, get_balance, estimate_gas,
    try_except, bind, read_config, session_post, session_get, session_send,
    check_status, of_sum, ret, raise, log_request, deploy_request, query_request,
    execute_request, receipt_request, balance_request, estimate_request.

(** Split on every value a run branches on, innermost first. *)
Ltac split_run :=
  repeat match goal with
    | |- context [match ?x with _ => _ end] =>
        lazymatch x with
        | context [match _ with _ => _ end] => fail
        | _ => destruct x; cbn
        end
    end.

Ltac run_client :=
  unfold failure, reply_body; unfold_client; cbn; split_run;
  intros; try discriminate; try congruence.

Lemma failure_none (fields : list string) (o : Exn + Response) :
  failure fields o = None ->
  exists d, reply_body o = Some d /\ field_failure d fields = None.
Proof.
  unfold failure, reply_body. intros H.
  destruct o as [e | resp]; [discriminate |].
  destruct (raise_for_status resp); [discriminate |].
  destruct (json resp) as [e | d]; [discriminate |].
  exists d. split; [reflexivity | exact H].
Qed.

Lemma reply_body_failure (fields : list string) (o : Exn + Response) (d : PyVal) :
  reply_body o = Some d -> failure fields o = field_failure d fields.
Proof.
  unfold failure, reply_body.
  destruct o as [e | resp]; [discriminate |].
  destruct (raise_for_status resp); [discriminate |].
  destruct (json resp) as [e | d']; [discriminate |].
  now intros [= ->].
Qed.

Lemma reply_body_inv (o : Exn + Response) (d : PyVal) :
  reply_body o = Some d ->
  exists resp, o = inr resp /\ raise_for_status resp = None /\ json resp = inr d.
Proof.
  unfold reply_body.
  destruct o as [e | resp]; [discriminate |].
  destruct (raise_for_status resp) eqn:Hs; [discriminate |].
  destruct (json resp) as [e | d'] eqn:Hj; [discriminate |].
  intros [= ->]. now exists resp.
Qed.

(** Follow a run along a reply [H] whose fields are known. *)
Ltac follow_reply H :=
  let resp := fresh "resp" in
  let Ho := fresh "Ho" in
  let Hs := fresh "Hs" in
  let Hj := fresh "Hj" in
  apply reply_body_inv in H; destruct H as (resp & Ho & Hs & Hj);
  unfold deploy_request, query_request, execute_request, receipt_request,
    balance_request, estimate_request in Ho;
  cbn in Ho; unfold_client; cbn; rewrite Ho; cbn; rewrite Hs; cbn; rewrite Hj; cbn;
  repeat match goal with
    | Hf : getitem _ _ = inr _ |- _ => rewrite Hf; cbn; clear Hf
    end;
  try reflexivity.

(** A missing key is reported under its own name, between quotes. *)
Lemma getitem_missing (items : list (string * PyVal)) (k : string) :
  dict_get items k = None ->
  getitem (PyDict items) k = inl (mkExn KeyError (sq ++ k ++ sq)).
Proof.
  intros H. cbn. now rewrite H.
Qed.

Section Runs.

Variable net : Transport.

Lemma query_contract_failure a m args w e :
  failure ["result"] (net (sent w) (query_request w a m args)) = Some e ->
  query_contract net a m args w =
  (Ok (mkQueryResult false PyNone (Some (exn_text e))),
   log_request w (query_request w a m args)).
Proof.
  run_client.
Qed.

Lemma query_contract_reply a m args w d r :
  reply_body (net (sent w) (query_request w a m args)) = Some d ->
  getitem d "result" = inr r ->
  query_contract net a m args w =
  (Ok (mkQueryResult true r None), log_request w (query_request w a m args)).
Proof.
  intros H Hr. follow_reply H.
Qed.

(** Every query goes out, whatever comes back. *)
Lemma query_contract_sends a m args w :
  snd (query_contract net a m args w) = log_request w (query_request w a m args).
Proof.
  run_client.
Qed.

(** A failed query carries no data. *)
Lemma query_contract_failed_data a m args w q w' :
  query_contract net a m args w = (Ok q, w') ->
  success q = false -> data q = PyNone.
Proof.
  revert q w'. run_client;
    match goal with H : (_, _) = (_, _) |- _ => inversion H; subst end;
    cbn in *; congruence.
Qed.

Lemma deploy_contract_failure code args w e :
  failure ["contractAddress"; "txHash"; "blockNumber"]
    (net (sent w) (deploy_request w code args)) = Some e ->
  deploy_contract net code args w =
  (Raise (runtime_error ("Contract deployment failed: " ++ exn_text e)),
   log_request w (deploy_request w code args)).
Proof.
  run_client.
Qed.

Lemma deploy_contract_reply code args w d a h b :
  reply_body (net (sent w) (deploy_request w code args)) = Some d ->
  getitem d "contractAddress" = inr a ->
  getitem d "txHash" = inr h ->
  getitem d "blockNumber" = inr b ->
  deploy_contract net code args w =
  (Ok (mkContractDeployment a h b), log_request w (deploy_request w code args)).
Proof.
  intros H Ha Hh Hb. follow_reply H.
Qed.

Lemma execute_transaction_unsigned a m args v w :
  truthy (of_optional (private_key (config w))) = false ->
  execute_transaction net a m args v w =
  (Raise (runtime_error "Private key required for transactions"), w).
Proof.
  intros H. unfold execute_transaction, bind, read_config, raise.
  now rewrite H.
Qed.

Lemma execute_transaction_failure a m args v w e :
  truthy (of_optional (private_key (config w))) = true ->
  failure ["txHash"; "blockNumber"; "gasUsed"]
    (net (sent w) (execute_request w a m args v)) = Some e ->
  execute_transaction net a m args v w =
  (Raise (runtime_error ("Transaction execution failed: " ++ exn_text e)),
   log_request w (execute_request w a m args v)).
Proof.
  intros H. unfold execute_transaction, bind at 1, read_config at 1.
  rewrite H. cbn [negb]. run_client.
Qed.

Lemma execute_transaction_reply a m args v w d h b g :
  truthy (of_optional (private_key (config w))) = true ->
  reply_body (net (sent w) (execute_request w a m args v)) = Some d ->
  getitem d "txHash" = inr h ->
  getitem d "blockNumber" = inr b ->
  getitem d "gasUsed" = inr g ->
  execute_transaction net a m args v w =
  (Ok (mkTransactionResult h b g true), log_request w (execute_request w a m args v)).
Proof.
  intros H. unfold execute_transaction, bind at 1, read_config at 1.
  rewrite H. cbn [negb]. intros Hr Hh Hb Hg. follow_reply Hr.
Qed.

(** A transaction either stops at the key check or goes out once. *)
Lemma execute_transaction_sends a m args v w :
  snd (execute_transaction net a m args v w) = w \/
  snd (execute_transaction net a m args v w) =
    log_request w (execute_request w a m args v).
Proof.
  destruct (truthy (of_optional (private_key (config w)))) eqn:H.
  - right. unfold execute_transaction, bind at 1, read_config at 1.
    rewrite H. cbn [negb]. run_client.
  - left. now rewrite execute_transaction_unsigned.
Qed.

Lemma get_transaction_receipt_failure h w e :
  failure [] (net (sent w) (receipt_request w h)) = Some e ->
  get_transaction_receipt net h w =
  (Raise (runtime_error ("Failed to get transaction receipt: " ++ exn_text e)),
   log_request w (receipt_request w h)).
Proof.
  run_client.
Qed.

Lemma get_transaction_receipt_reply h w d :
  reply_body (net (sent w) (receipt_request w h)) = Some d ->
  get_transaction_receipt net h w = (Ok d, log_request w (receipt_request w h)).
Proof.
  intros H. follow_reply H.
Qed.

Lemma get_balance_failure a w e :
  failure ["balance"] (net (sent w) (balance_request w a)) = Some e ->
  get_balance net a w =
  (Raise (runtime_error ("Failed to get balance: " ++ exn_text e)),
   log_request w (balance_request w a)).
Proof.
  run_client.
Qed.

Lemma get_balance_reply a w d b :
  reply_body (net (sent w) (balance_request w a)) = Some d ->
  getitem d "balance" = inr b ->
  get_balance net a w = (Ok b, log_request w (balance_request w a)).
Proof.
  intros H Hb. follow_reply H.
Qed.

Lemma estimate_gas_failure a m args w e :
  failure ["gasEstimate"] (net (sent w) (estimate_request w a m args)) = Some e ->
  estimate_gas net a m args w =
  (Raise (runtime_error ("Failed to estimate gas: " ++ exn_text e)),
   log_request w (estimate_request w a m args)).
Proof.
  run_client.
Qed.

Lemma estimate_gas_reply a m args w d g :
  reply_body (net (sent w) (estimate_request w a m args)) = Some d ->
  getitem d "gasEstimate" = inr g ->
  estimate_gas net a m args w = (Ok g, log_request w (estimate_request w a m args)).
Proof.
  intros H Hg. follow_reply H.
Qed.

(** Whatever a raising operation raises is a [RuntimeError]. *)
Lemma call_raised_class c w x :
  fst (call_raised net c w) = Some x -> exn_class x = RuntimeError.
Proof.
  destruct c; unfold call_raised, raised; revert x; run_client;
    cbn in *; try discriminate;
    match goal with H : Some _ = Some _ |- _ => inversion H; reflexivity end.
Qed.

(** With the precondition met and no failure on the round trip, a
    raising operation returns. *)
Lemma call_returns c w :
  call_ready c w = true ->
  failure (call_fields c) (net (sent w) (call_request c w)) = None ->
  call_raised net c w = (None, log_request w (call_request c w)).
Proof.
  destruct c; cbn [call_ready call_request call_fields call_raised];
    intros Hk; unfold raised, failure, reply_body; unfold_client;
    cbv beta iota zeta;
    try (rewrite Hk; cbn [negb]);
    clear Hk; cbn; split_run; intros; try discriminate; try congruence.
Qed.

End Runs.

(** ** Helper methods *)

Lemma field_failure_none_3 d f1 f2 f3 :
  field_failure d [f1; f2; f3] = None ->
  exists v1 v2 v3,
    getitem d f1 = inr v1 /\ getitem d f2 = inr v2 /\ getitem d f3 = inr v3.
Proof.
  cbn. destruct (getitem d f1) as [|v1]; [discriminate |].
  destruct (getitem d f2) as [|v2]; [discriminate |].
  destruct (getitem d f3) as [|v3]; [discriminate |].
  intros _. now exists v1, v2, v3.
Qed.

Lemma bind_ret_snd {A B} (c : M A) (f : A -> B) (w : World) :
  snd ((x <- c ;; ret (f x)) w) = snd (c w).
Proof.
  unfold bind, ret. now destruct (c w) as [[x | e] w'].
Qed.

Lemma bind_ret_ok {A B} (c : M A) (f : A -> B) (w w' : World) (x : A) :
  c w = (Ok x, w') -> (y <- c ;; ret (f y)) w = (Ok (f x), w').
Proof.
  intros H. unfold bind, ret. now rewrite H.
Qed.

Section Helpers.

Variable net : Transport.

Lemma query_contract_aimed a m args w :
  aimed_at a w (snd (query_contract net a m args w)).
Proof.
  right. exists (query_request w a m args).
  split; [apply query_contract_sends | reflexivity].
Qed.

Lemma execute_transaction_aimed a m args v w :
  aimed_at a w (snd (execute_transaction net a m args v w)).
Proof.
  destruct (execute_transaction_sends net a m args v w) as [H | H].
  - now left.
  - right. exists (execute_request w a m args v). split; [exact H | reflexivity].
Qed.

Lemma token_deploy_stores self name symbol total_supply w d a h b :
  reply_body (net (sent w)
    (deploy_request w (TokenContract.token_code name symbol total_supply) None)) = Some d ->
  getitem d "contractAddress" = inr a ->
  getitem d "txHash" = inr h ->
  getitem d "blockNumber" = inr b ->
  TokenContract.deploy net self name symbol total_supply w =
  (Ok (mkContractDeployment a h b, TokenContract.mk a),
   log_request w (deploy_request w (TokenContract.token_code name symbol total_supply) None)).
Proof.
  intros H Ha Hh Hb. unfold TokenContract.deploy, bind.
  now rewrite (deploy_contract_reply net _ _ _ _ _ _ _ H Ha Hh Hb).
Qed.

Lemma nft_deploy_stores self name symbol w d a h b :
  reply_body (net (sent w)
    (deploy_request w (NFTContract.nft_code name symbol) None)) = Some d ->
  getitem d "contractAddress" = inr a ->
  getitem d "txHash" = inr h ->
  getitem d "blockNumber" = inr b ->
  NFTContract.deploy net self name symbol w =
  (Ok (mkContractDeployment a h b, NFTContract.mk a),
   log_request w (deploy_request w (NFTContract.nft_code name symbol) None)).
Proof.
  intros H Ha Hh Hb. unfold NFTContract.deploy, bind.
  now rewrite (deploy_contract_reply net _ _ _ _ _ _ _ H Ha Hh Hb).
Qed.

Lemma token_balance_of_delegates self address :
  truthy (TokenContract.contract_address self) = true ->
  TokenContract.balance_of net self address =
  (q <- query_contract net (TokenContract.contract_address self) "balanceOf"
          (Some [PyStr address]) ;;
   ret (data q)).
Proof.
  intros H. unfold TokenContract.balance_of. now rewrite H.
Qed.

Lemma token_transfer_delegates self to amount :
  truthy (TokenContract.contract_address self) = true ->
  TokenContract.transfer net self to amount =
  execute_transaction net (TokenContract.contract_address self) "transfer"
    (Some [PyStr to; PyStr amount]) "0".
Proof.
  intros H. unfold TokenContract.transfer. now rewrite H.
Qed.

Lemma token_approve_delegates self spender amount :
  truthy (TokenContract.contract_address self) = true ->
  TokenContract.approve net self spender amount =
  execute_transaction net (TokenContract.contract_address self) "approve"
    (Some [PyStr spender; PyStr amount]) "0".
Proof.
  intros H. unfold TokenContract.approve. now rewrite H.
Qed.

Lemma nft_mint_delegates self to uri :
  truthy (NFTContract.contract_address self) = true ->
  NFTContract.mint net self to uri =
  execute_transaction net (NFTContract.contract_address self) "mint"
    (Some [PyStr to; PyStr uri]) "0".
Proof.
  intros H. unfold NFTContract.mint. now rewrite H.
Qed.

Lemma nft_owner_of_delegates self token_id :
  truthy (NFTContract.contract_address self) = true ->
  NFTContract.owner_of net self token_id =
  (q <- query_contract net (NFTContract.contract_address self) "ownerOf"
          (Some [PyInt token_id]) ;;
   ret (data q)).
Proof.
  intros H. unfold NFTContract.owner_of. now rewrite H.
Qed.

(** The client operations leave the configuration object alone. *)
Lemma query_contract_config a m args w :
  config (snd (query_contract net a m args w)) = config w.
Proof.
  now rewrite query_contract_sends.
Qed.

Lemma call_raised_config c w :
  config (snd (call_raised net c w)) = config w.
Proof.
  destruct c; cbn [call_raised snd]; run_client.
Qed.

End Helpers.

(** ** Error policy of the client *)

(** C1 (amended).  [query_contract] never raises and always puts its
    request on the wire.  When the round trip goes through and the body
    has a [result] entry, it returns [QueryResult(success=True,
    data=<result>)] with no error.  On any failure (the transport
    raised, the status check raised, the body did not decode, [result]
    could not be read) it returns [QueryResult(success=False, data=None,
    error=str(e))] for the exception [e] it caught: the error text is
    that of the exception, whatever it is. *)
Theorem query_contract_never_raises (net : Transport) (a : PyVal) (m : string)
    (args : option (list PyVal)) (w : World) :
  exists q,
    query_contract net a m args w = (Ok q, log_request w (query_request w a m args)) /\
    match failure ["result"] (net (sent w) (query_request w a m args)) with
    | Some e => q = mkQueryResult false PyNone (Some (exn_text e))
    | None =>
        exists d,
          reply_body (net (sent w) (query_request w a m args)) = Some d /\
          getitem d "result" = inr (data q) /\
          success q = true /\ error q = None
    end.
Proof.
  destruct (failure ["result"] (net (sent w) (query_request w a m args)))
    as [e |] eqn:Hf.
  - exists (mkQueryResult false PyNone (Some (exn_text e))).
    split; [apply query_contract_failure; exact Hf | reflexivity].
  - destruct (failure_none _ _ Hf) as (d & Hd & Hr).
    cbn in Hr. destruct (getitem d "result") as [e | r] eqn:Hg; [discriminate |].
    exists (mkQueryResult true r None). split.
    + now apply query_contract_reply with (d := d).
    + exists d. cbn. auto.
Qed.

(** C1, as stated, fails: a transport error whose text is empty (a
    [ConnectionError()] built without a message) is reported with an
    empty error string. *)
Lemma query_contract_empty_error :
  query_contract (always_raises (mkExn (OtherException "ConnectionError") EmptyString))
    (PyStr "0xabc") "balanceOf" None keyless_world =
  (Ok (mkQueryResult false PyNone (Some EmptyString)),
   log_request keyless_world
     (query_request keyless_world (PyStr "0xabc") "balanceOf" None)) /\
  ~ (forall net a m args w,
       exists q,
         fst (query_contract net a m args w) = Ok q /\
         (success q = true \/
          (success q = false /\ data q = PyNone /\
           exists s, error q = Some s /\ s <> EmptyString))).
Proof.
  split; [reflexivity |].
  intros H.
  destruct (H (always_raises (mkExn (OtherException "ConnectionError") EmptyString))
              (PyStr "0xabc") "balanceOf" None keyless_world)
    as (q & Hq & Hcases).
  cbn in Hq. injection Hq as <-.
  destruct Hcases as [Hs | (_ & _ & s & Hs & Hne)].
  - discriminate Hs.
  - cbn in Hs. injection Hs as <-. now apply Hne.
Qed.

(** C2.  With no signing key configured, [execute_transaction] raises
    [RuntimeError("Private key required for transactions")] and leaves
    the world as it found it, whatever the address, method, arguments
    and value: no request is attempted. *)
Theorem execute_without_key_sends_nothing (net : Transport) (a : PyVal)
    (m : string) (args : option (list PyVal)) (v : string) (w : World) :
  private_key (config w) = None ->
  execute_transaction net a m args v w =
    (Raise (runtime_error "Private key required for transactions"), w) /\
  sent (snd (execute_transaction net a m args v w)) = sent w.
Proof.
  intros H.
  assert (Hk : truthy (of_optional (private_key (config w))) = false)
    by now rewrite H.
  now rewrite (execute_transaction_unsigned net a m args v w Hk).
Qed.

Lemma execute_without_key_sends_nothing_witness :
  private_key (config keyless_world) = None /\
  execute_transaction (always_replies execute_reply) (PyStr "0xabc") "transfer"
    (Some [PyStr "0xuser"; PyStr "100"]) "0" keyless_world =
    (Raise (runtime_error "Private key required for transactions"), keyless_world) /\
  sent (snd (execute_transaction (always_replies execute_reply) (PyStr "0xabc")
               "transfer" (Some [PyStr "0xuser"; PyStr "100"]) "0" keyless_world)) = [].
Proof.
  split; [reflexivity |].
  apply (execute_without_key_sends_nothing (always_replies execute_reply)
           (PyStr "0xabc") "transfer" (Some [PyStr "0xuser"; PyStr "100"]) "0"
           keyless_world).
  reflexivity.
Defined.

(** C7 (amended).  For each of the five raising operations, once its
    local precondition holds, any failure of the round trip (the
    transport raised, the status check raised, the body did not decode,
    or an expected field could not be read) with exception [e] makes the
    operation raise one [RuntimeError] whose text is the operation's
    fixed prefix followed by [str(e)]; the request has gone out.  The
    status check is that of the requests library: a status from 400 to
    599 is such a failure, reported with the library's HTTP error text,
    while any other status, 1xx and 3xx included, passes the check, and
    the outcome is then decided by the body alone. *)
Theorem raising_calls_wrap_failure (net : Transport) (c : RaisingCall) (w : World) :
  call_ready c w = true ->
  (forall e,
     failure (call_fields c) (net (sent w) (call_request c w)) = Some e ->
     call_raised net c w =
       (Some (runtime_error (call_prefix c ++ exn_text e)),
        log_request w (call_request c w))) /\
  (forall status reason url body,
     net (sent w) (call_request c w) = inr (http_response status reason url body) ->
     400 <= status < 600 ->
     call_raised net c w =
       (Some (runtime_error (call_prefix c ++ http_error_text status reason url)),
        log_request w (call_request c w))) /\
  (forall status reason url d,
     net (sent w) (call_request c w) = inr (http_response status reason url (inr d)) ->
     ~ (400 <= status < 600) ->
     call_raised net c w =
       (option_map (fun e => runtime_error (call_prefix c ++ exn_text e))
          (field_failure d (call_fields c)),
        log_request w (call_request c w))).
Proof.
  intros Hk.
  assert (Hwrap : forall e,
     failure (call_fields c) (net (sent w) (call_request c w)) = Some e ->
     call_raised net c w =
       (Some (runtime_error (call_prefix c ++ exn_text e)),
        log_request w (call_request c w))).
  { intros e. revert Hk.
    destruct c; cbn [call_ready call_fields call_request call_raised call_prefix];
      intros Hk Hf; unfold raised.
    - now rewrite (deploy_contract_failure net _ _ _ _ Hf).
    - now rewrite (execute_transaction_failure net _ _ _ _ _ _ Hk Hf).
    - now rewrite (get_transaction_receipt_failure net _ _ _ Hf).
    - now rewrite (get_balance_failure net _ _ _ Hf).
    - now rewrite (estimate_gas_failure net _ _ _ _ _ Hf). }
  split; [exact Hwrap | split].
  - intros status reason url body Hnet [Hlo Hhi].
    apply (Hwrap (mkExn (OtherException "HTTPError") (http_error_text status reason url))).
    rewrite Hnet. unfold failure, http_response. cbn [raise_for_status].
    apply Z.leb_le in Hlo. apply Z.ltb_lt in Hhi. now rewrite Hlo, Hhi.
  - intros status reason url d Hnet Hout.
    assert (Hf : failure (call_fields c) (net (sent w) (call_request c w)) =
                 field_failure d (call_fields c)).
    { rewrite Hnet. unfold failure, http_response. cbn [raise_for_status json].
      destruct (400 <=? status) eqn:Hlo; cbn [andb]; [| reflexivity].
      destruct (status <? 600) eqn:Hhi; [| reflexivity].
      exfalso. apply Hout. split; [now apply Z.leb_le | now apply Z.ltb_lt]. }
    destruct (field_failure d (call_fields c)) as [e |] eqn:Hd; cbn [option_map].
    + now apply Hwrap.
    + now apply call_returns.
Qed.

Lemma raising_calls_wrap_failure_witness :
  call_ready (Balance "0xuser") keyless_world = true /\
  400 <= 404 < 600 /\
  call_raised
    (always_answers
       (http_response 404 "Not Found" "https://rpc.agefix.com/balance/0xuser"
          (inr (PyDict [("error", PyStr "unknown account")]))))
    (Balance "0xuser") keyless_world =
    (Some (runtime_error
             "Failed to get balance: 404 Client Error: Not Found for url: https://rpc.agefix.com/balance/0xuser"),
     log_request keyless_world (call_request (Balance "0xuser") keyless_world)).
Proof.
  split; [reflexivity |]. split; [lia |].
  apply (proj1 (proj2 (raising_calls_wrap_failure
           (always_answers
              (http_response 404 "Not Found" "https://rpc.agefix.com/balance/0xuser"
                 (inr (PyDict [("error", PyStr "unknown account")]))))
           (Balance "0xuser") keyless_world eq_refl))
           404 "Not Found" "https://rpc.agefix.com/balance/0xuser"
           (inr (PyDict [("error", PyStr "unknown account")])));
    [reflexivity | lia].
Defined.

(** C7, as stated, fails: a status outside 2xx is not always a failure.
    A reply with status 304 and a readable body passes the status check,
    and [get_balance] returns its [balance] entry instead of raising. *)
Lemma non_2xx_status_can_return :
  ~ (200 <= 304 < 300) /\
  get_balance
    (always_answers
       (http_response 304 "Not Modified" "https://rpc.agefix.com/balance/0xuser"
          (inr (PyDict [("balance", PyStr "5")]))))
    "0xuser" keyless_world =
    (Ok (PyStr "5"), log_request keyless_world (balance_request keyless_world "0xuser")) /\
  ~ (forall net c w status reason url body,
       call_ready c w = true ->
       net (sent w) (call_request c w) = inr (http_response status reason url body) ->
       ~ (200 <= status < 300) ->
       exists x, fst (call_raised net c w) = Some x /\ exn_class x = RuntimeError).
Proof.
  split; [lia |]. split; [reflexivity |].
  intros H.
  destruct (H (always_answers
                 (http_response 304 "Not Modified"
                    "https://rpc.agefix.com/balance/0xuser"
                    (inr (PyDict [("balance", PyStr "5")]))))
              (Balance "0xuser") keyless_world 304 "Not Modified"
              "https://rpc.agefix.com/balance/0xuser"
              (inr (PyDict [("balance", PyStr "5")])) eq_refl eq_refl)
    as (x & Hx & _); [lia |].
  discriminate Hx.
Qed.

(** C9.  Whenever [execute_transaction] returns, the result has
    [success=True]; it returns only with a signing key configured and a
    round trip without failure. *)
Theorem executed_result_is_success (net : Transport) (a : PyVal) (m : string)
    (args : option (list PyVal)) (v : string) (w w' : World)
    (r : TransactionResult) :
  execute_transaction net a m args v w = (Ok r, w') ->
  tx_success r = true /\
  truthy (of_optional (private_key (config w))) = true /\
  failure ["txHash"; "blockNumber"; "gasUsed"]
    (net (sent w) (execute_request w a m args v)) = None.
Proof.
  intros H.
  destruct (truthy (of_optional (private_key (config w)))) eqn:Hk.
  - destruct (failure ["txHash"; "blockNumber"; "gasUsed"]
                (net (sent w) (execute_request w a m args v))) as [e |] eqn:Hf.
    + rewrite (execute_transaction_failure net _ _ _ _ _ _ Hk Hf) in H.
      discriminate H.
    + destruct (failure_none _ _ Hf) as (d & Hd & Hfields).
      destruct (field_failure_none_3 _ _ _ _ Hfields) as (h & b & g & Hh & Hb & Hg).
      rewrite (execute_transaction_reply net _ _ _ _ _ _ _ _ _ Hk Hd Hh Hb Hg) in H.
      injection H as <- _. auto.
  - rewrite (execute_transaction_unsigned net _ _ _ _ _ Hk) in H. discriminate H.
Qed.

Lemma executed_result_is_success_witness :
  execute_transaction (always_replies execute_reply) (PyStr "0xabc") "transfer"
    (Some [PyStr "0xuser"; PyStr "100"]) "0" signing_world =
    (Ok (mkTransactionResult (PyStr "0x2") (PyInt 11) (PyInt 21000) true),
     log_request signing_world
       (execute_request signing_world (PyStr "0xabc") "transfer"
          (Some [PyStr "0xuser"; PyStr "100"]) "0")) /\
  tx_success (mkTransactionResult (PyStr "0x2") (PyInt 11) (PyInt 21000) true) = true.
Proof.
  split; [reflexivity |].
  apply (executed_result_is_success (always_replies execute_reply) (PyStr "0xabc")
           "transfer" (Some [PyStr "0xuser"; PyStr "100"]) "0" signing_world
           (log_request signing_world
              (execute_request signing_world (PyStr "0xabc") "transfer"
                 (Some [PyStr "0xuser"; PyStr "100"]) "0"))
           (mkTransactionResult (PyStr "0x2") (PyInt 11) (PyInt 21000) true)).
  reflexivity.
Defined.

(** ** Contract helpers *)

(** C3 (amended).  The guard of every helper method other than
    [deploy] is Python truthiness of the stored address.  With an
    address that is unset or otherwise falsy (such as the empty string),
    [balance_of], [transfer], [approve], [mint] and [owner_of] raise
    [RuntimeError("Contract not deployed")] and send nothing.  With a
    truthy address (a non-empty string), each delegates to
    [query_contract] or [execute_transaction] with the stored address,
    its fixed method name and its arguments in order. *)
Theorem helper_methods_guard_then_delegate (net : Transport) :
  (forall self, truthy (TokenContract.contract_address self) = false ->
     (forall address w,
        TokenContract.balance_of net self address w =
          (Raise (runtime_error "Contract not deployed"), w)) /\
     (forall to amount w,
        TokenContract.transfer net self to amount w =
          (Raise (runtime_error "Contract not deployed"), w)) /\
     (forall spender amount w,
        TokenContract.approve net self spender amount w =
          (Raise (runtime_error "Contract not deployed"), w))) /\
  (forall self, truthy (NFTContract.contract_address self) = false ->
     (forall to uri w,
        NFTContract.mint net self to uri w =
          (Raise (runtime_error "Contract not deployed"), w)) /\
     (forall token_id w,
        NFTContract.owner_of net self token_id w =
          (Raise (runtime_error "Contract not deployed"), w))) /\
  (forall self, truthy (TokenContract.contract_address self) = true ->
     (forall address,
        TokenContract.balance_of net self address =
          (q <- query_contract net (TokenContract.contract_address self) "balanceOf"
                  (Some [PyStr address]) ;;
           ret (data q))) /\
     (forall to amount,
        TokenContract.transfer net self to amount =
          execute_transaction net (TokenContract.contract_address self) "transfer"
            (Some [PyStr to; PyStr amount]) "0") /\
     (forall spender amount,
        TokenContract.approve net self spender amount =
          execute_transaction net (TokenContract.contract_address self) "approve"
            (Some [PyStr spender; PyStr amount]) "0")) /\
  (forall self, truthy (NFTContract.contract_address self) = true ->
     (forall to uri,
        NFTContract.mint net self to uri =
          execute_transaction net (NFTContract.contract_address self) "mint"
            (Some [PyStr to; PyStr uri]) "0") /\
     (forall token_id,
        NFTContract.owner_of net self token_id =
          (q <- query_contract net (NFTContract.contract_address self) "ownerOf"
                  (Some [PyInt token_id]) ;;
           ret (data q)))).
Proof.
  repeat split; intros.
  - unfold TokenContract.balance_of. now rewrite H.
  - unfold TokenContract.transfer. now rewrite H.
  - unfold TokenContract.approve. now rewrite H.
  - unfold NFTContract.mint. now rewrite H.
  - unfold NFTContract.owner_of. now rewrite H.
  - now apply token_balance_of_delegates.
  - now apply token_transfer_delegates.
  - now apply token_approve_delegates.
  - now apply nft_mint_delegates.
  - now apply nft_owner_of_delegates.
Qed.

Lemma helper_methods_guard_then_delegate_witness :
  truthy (TokenContract.contract_address (TokenContract.init None)) = false /\
  TokenContract.balance_of (always_replies query_reply) (TokenContract.init None)
    "0xuser" keyless_world =
    (Raise (runtime_error "Contract not deployed"), keyless_world) /\
  truthy (NFTContract.contract_address (NFTContract.init (Some "0xabc"))) = true /\
  NFTContract.mint (always_replies execute_reply) (NFTContract.init (Some "0xabc"))
    "0xuser" "ipfs://metadata-uri" =
    execute_transaction (always_replies execute_reply) (PyStr "0xabc") "mint"
      (Some [PyStr "0xuser"; PyStr "ipfs://metadata-uri"]) "0".
Proof.
  split; [reflexivity |]. split.
  - apply (proj1 (helper_methods_guard_then_delegate (always_replies query_reply))
             (TokenContract.init None)).
    reflexivity.
  - split; [reflexivity |].
    apply (proj2 (proj2 (proj2
             (helper_methods_guard_then_delegate (always_replies execute_reply))))
             (NFTContract.init (Some "0xabc"))).
    reflexivity.
Defined.

(** C3, as stated, fails: a helper built on the empty string has its
    address set, yet [balance_of] raises the local error and sends
    nothing, where the delegated query would have gone out and been
    answered. *)
Lemma empty_address_is_not_delegated :
  TokenContract.contract_address (TokenContract.init (Some EmptyString)) <> PyNone /\
  TokenContract.balance_of (always_replies query_reply)
    (TokenContract.init (Some EmptyString)) "0xuser" keyless_world =
    (Raise (runtime_error "Contract not deployed"), keyless_world) /\
  (q <- query_contract (always_replies query_reply)
          (TokenContract.contract_address (TokenContract.init (Some EmptyString)))
          "balanceOf" (Some [PyStr "0xuser"]) ;;
   ret (data q)) keyless_world =
    (Ok (PyStr "500"),
     log_request keyless_world
       (query_request keyless_world (PyStr EmptyString) "balanceOf"
          (Some [PyStr "0xuser"]))).
Proof.
  split; [discriminate |]. split; reflexivity.
Qed.



(** C5.  A reply with a good status whose body has a [result] entry
    [r] makes [query_contract] return [QueryResult(success=True,
    data=r)] with no error, and a token helper with an address in place
    hands that data back: [balance_of] sends one [balanceOf] query for
    the address asked about, aimed at the stored contract address, and
    returns [r].  With [/query] answering [{result: "500"}],
    [balance_of("0xuser")] returns ["500"]. *)
Theorem balance_of_returns_result (net : Transport) :
  (forall a m args w d r,
     reply_body (net (sent w) (query_request w a m args)) = Some d ->
     getitem d "result" = inr r ->
     query_contract net a m args w =
       (Ok (mkQueryResult true r None), log_request w (query_request w a m args))) /\
  (forall self address w d r,
     truthy (TokenContract.contract_address self) = true ->
     reply_body (net (sent w)
       (query_request w (TokenContract.contract_address self) "balanceOf"
          (Some [PyStr address]))) = Some d ->
     getitem d "result" = inr r ->
     TokenContract.balance_of net self address w =
       (Ok r,
        log_request w
          (query_request w (TokenContract.contract_address self) "balanceOf"
             (Some [PyStr address])))) /\
  (forall self w,
     truthy (TokenContract.contract_address self) = true ->
     reply_body (net (sent w)
       (query_request w (TokenContract.contract_address self) "balanceOf"
          (Some [PyStr "0xuser"]))) = Some query_reply ->
     TokenContract.balance_of net self "0xuser" w =
       (Ok (PyStr "500"),
        log_request w
          (query_request w (TokenContract.contract_address self) "balanceOf"
             (Some [PyStr "0xuser"])))).
Proof.
  assert (Hgen : forall self address w d r,
     truthy (TokenContract.contract_address self) = true ->
     reply_body (net (sent w)
       (query_request w (TokenContract.contract_address self) "balanceOf"
          (Some [PyStr address]))) = Some d ->
     getitem d "result" = inr r ->
     TokenContract.balance_of net self address w =
       (Ok r,
        log_request w
          (query_request w (TokenContract.contract_address self) "balanceOf"
             (Some [PyStr address])))).
  { intros self address w d r Ht Hd Hr.
    rewrite (token_balance_of_delegates net self address Ht).
    now rewrite (bind_ret_ok _ data _ _ _ (query_contract_reply net _ _ _ _ _ _ Hd Hr)). }
  split; [| split].
  - intros a m args w d r Hd Hr. now apply query_contract_reply with (d := d).
  - exact Hgen.
  - intros self w Ht Hd. now apply (Hgen self "0xuser" w query_reply (PyStr "500")).
Qed.

Lemma balance_of_returns_result_witness :
  truthy (TokenContract.contract_address (TokenContract.init (Some "0xabc"))) = true /\
  reply_body (always_replies query_reply (sent keyless_world)
    (query_request keyless_world (PyStr "0xabc") "balanceOf"
       (Some [PyStr "0xuser"]))) = Some query_reply /\
  TokenContract.balance_of (always_replies query_reply)
    (TokenContract.init (Some "0xabc")) "0xuser" keyless_world =
    (Ok (PyStr "500"),
     log_request keyless_world
       (query_request keyless_world (PyStr "0xabc") "balanceOf"
          (Some [PyStr "0xuser"]))).
Proof.
  split; [reflexivity |]. split; [reflexivity |].
  apply (proj2 (proj2 (balance_of_returns_result (always_replies query_reply)))
           (TokenContract.init (Some "0xabc")) keyless_world);
    reflexivity.
Defined.

(** C6.  With a signing key configured and an address in place,
    [TokenContract.transfer] sends one [/execute] request for method
    [transfer] with arguments [to, amount] and value ["0"], aimed at the
    stored address, and returns the [TransactionResult] whose hash,
    block number and gas are read from the reply and whose success is
    [True].  With [/execute] answering [txHash "0x2"], [blockNumber 11],
    [gasUsed 21000] that is [TransactionResult(tx_hash="0x2",
    block_number=11, gas_used=21000, success=True)]. *)
Theorem transfer_returns_transaction (net : Transport) (self : TokenContract.t)
    (to amount : string) (w : World) :
  truthy (TokenContract.contract_address self) = true ->
  truthy (of_optional (private_key (config w))) = true ->
  (forall d h b g,
     reply_body (net (sent w)
       (execute_request w (TokenContract.contract_address self) "transfer"
          (Some [PyStr to; PyStr amount]) "0")) = Some d ->
     getitem d "txHash" = inr h ->
     getitem d "blockNumber" = inr b ->
     getitem d "gasUsed" = inr g ->
     TokenContract.transfer net self to amount w =
       (Ok (mkTransactionResult h b g true),
        log_request w
          (execute_request w (TokenContract.contract_address self) "transfer"
             (Some [PyStr to; PyStr amount]) "0"))) /\
  (reply_body (net (sent w)
     (execute_request w (TokenContract.contract_address self) "transfer"
        (Some [PyStr to; PyStr amount]) "0")) = Some execute_reply ->
   TokenContract.transfer net self to amount w =
     (Ok (mkTransactionResult (PyStr "0x2") (PyInt 11) (PyInt 21000) true),
      log_request w
        (execute_request w (TokenContract.contract_address self) "transfer"
           (Some [PyStr to; PyStr amount]) "0"))).
Proof.
  intros Ht Hk.
  assert (Hgen : forall d h b g,
     reply_body (net (sent w)
       (execute_request w (TokenContract.contract_address self) "transfer"
          (Some [PyStr to; PyStr amount]) "0")) = Some d ->
     getitem d "txHash" = inr h ->
     getitem d "blockNumber" = inr b ->
     getitem d "gasUsed" = inr g ->
     TokenContract.transfer net self to amount w =
       (Ok (mkTransactionResult h b g true),
        log_request w
          (execute_request w (TokenContract.contract_address self) "transfer"
             (Some [PyStr to; PyStr amount]) "0"))).
  { intros d h b g Hd Hh Hb Hg.
    rewrite (token_transfer_delegates net self to amount Ht).
    now apply execute_transaction_reply with (d := d). }
  split; [exact Hgen |].
  intros Hd. now apply (Hgen execute_reply).
Qed.

Lemma transfer_returns_transaction_witness :
  truthy (TokenContract.contract_address (TokenContract.init (Some "0xabc"))) = true /\
  truthy (of_optional (private_key (config signing_world))) = true /\
  reply_body (always_replies execute_reply (sent signing_world)
    (execute_request signing_world (PyStr "0xabc") "transfer"
       (Some [PyStr "0xuser"; PyStr "100"]) "0")) = Some execute_reply /\
  TokenContract.transfer (always_replies execute_reply)
    (TokenContract.init (Some "0xabc")) "0xuser" "100" signing_world =
    (Ok (mkTransactionResult (PyStr "0x2") (PyInt 11) (PyInt 21000) true),
     log_request signing_world
       (execute_request signing_world (PyStr "0xabc") "transfer"
          (Some [PyStr "0xuser"; PyStr "100"]) "0")).
Proof.
  split; [reflexivity |]. split; [reflexivity |]. split; [reflexivity |].
  apply (proj2 (transfer_returns_transaction (always_replies execute_reply)
                  (TokenContract.init (Some "0xabc")) "0xuser" "100" signing_world
                  eq_refl eq_refl)).
  reflexivity.
Defined.

(** C10.  With an address in place, [balance_of] and [owner_of] return
    the [data] field of whatever [query_contract] returned, without
    looking at [success]; when the query failed that is [None], and the
    error text is dropped. *)
Theorem query_helpers_return_data_unchecked (net : Transport) :
  (forall self address w q w',
     truthy (TokenContract.contract_address self) = true ->
     query_contract net (TokenContract.contract_address self) "balanceOf"
       (Some [PyStr address]) w = (Ok q, w') ->
     TokenContract.balance_of net self address w = (Ok (data q), w') /\
     (success q = false ->
      TokenContract.balance_of net self address w = (Ok PyNone, w'))) /\
  (forall self token_id w q w',
     truthy (NFTContract.contract_address self) = true ->
     query_contract net (NFTContract.contract_address self) "ownerOf"
       (Some [PyInt token_id]) w = (Ok q, w') ->
     NFTContract.owner_of net self token_id w = (Ok (data q), w') /\
     (success q = false ->
      NFTContract.owner_of net self token_id w = (Ok PyNone, w'))).
Proof.
  split.
  - intros self address w q w' Ht Hq.
    rewrite (token_balance_of_delegates net self address Ht).
    rewrite (bind_ret_ok _ data _ _ _ Hq).
    split; [reflexivity |].
    intros Hs. now rewrite (query_contract_failed_data net _ _ _ _ _ _ Hq Hs).
  - intros self token_id w q w' Ht Hq.
    rewrite (nft_owner_of_delegates net self token_id Ht).
    rewrite (bind_ret_ok _ data _ _ _ Hq).
    split; [reflexivity |].
    intros Hs. now rewrite (query_contract_failed_data net _ _ _ _ _ _ Hq Hs).
Qed.

Lemma query_helpers_return_data_unchecked_witness :
  truthy (NFTContract.contract_address (NFTContract.init (Some "0xabc"))) = true /\
  query_contract (always_raises (mkExn (OtherException "ConnectionError") "refused"))
    (PyStr "0xabc") "ownerOf" (Some [PyInt 7]) keyless_world =
    (Ok (mkQueryResult false PyNone (Some "refused")),
     log_request keyless_world
       (query_request keyless_world (PyStr "0xabc") "ownerOf" (Some [PyInt 7]))) /\
  success (mkQueryResult false PyNone (Some "refused")) = false /\
  NFTContract.owner_of (always_raises (mkExn (OtherException "ConnectionError") "refused"))
    (NFTContract.init (Some "0xabc")) 7 keyless_world =
    (Ok PyNone,
     log_request keyless_world
       (query_request keyless_world (PyStr "0xabc") "ownerOf" (Some [PyInt 7]))).
Proof.
  split; [reflexivity |]. split; [reflexivity |]. split; [reflexivity |].
  apply (proj2 (query_helpers_return_data_unchecked
                  (always_raises (mkExn (OtherException "ConnectionError") "refused")))
           (NFTContract.init (Some "0xabc")) 7 keyless_world
           (mkQueryResult false PyNone (Some "refused"))
           (log_request keyless_world
              (query_request keyless_world (PyStr "0xabc") "ownerOf" (Some [PyInt 7])))
           eq_refl eq_refl).
  reflexivity.
Defined.

(** ** The configuration object *)

Section Frame.

Variable net : Transport.

Lemma execute_transaction_config a m args v w :
  config (snd (execute_transaction net a m args v w)) = config w.
Proof.
  now destruct (execute_transaction_sends net a m args v w) as [-> | ->].
Qed.

Lemma deploy_contract_config code args w :
  config (snd (deploy_contract net code args w)) = config w.
Proof.
  exact (call_raised_config net (Deploy code args) w).
Qed.

End Frame.

(** C8 (amended).  No operation of the client or of the contract
    helpers modifies the configuration: the constructor keeps the record
    it is given, and every operation leaves every field of it as it
    found it.  The record itself is an ordinary dataclass, not a frozen
    one: assigning to one of its fields succeeds and is seen by the
    client that references it. *)
Theorem operations_leave_config_unchanged (net : Transport) (w : World) :
  (forall defaults cfg, config (AgefixClient_init defaults cfg) = cfg) /\
  (forall code args, config (snd (deploy_contract net code args w)) = config w) /\
  (forall a m args, config (snd (query_contract net a m args w)) = config w) /\
  (forall a m args v, config (snd (execute_transaction net a m args v w)) = config w) /\
  (forall h, config (snd (get_transaction_receipt net h w)) = config w) /\
  (forall a, config (snd (get_balance net a w)) = config w) /\
  (forall a m args, config (snd (estimate_gas net a m args w)) = config w) /\
  (forall self name symbol total_supply,
     config (snd (TokenContract.deploy net self name symbol total_supply w)) = config w) /\
  (forall self address,
     config (snd (TokenContract.balance_of net self address w)) = config w) /\
  (forall self to amount,
     config (snd (TokenContract.transfer net self to amount w)) = config w) /\
  (forall self spender amount,
     config (snd (TokenContract.approve net self spender amount w)) = config w) /\
  (forall self name symbol,
     config (snd (NFTContract.deploy net self name symbol w)) = config w) /\
  (forall self to uri,
     config (snd (NFTContract.mint net self to uri w)) = config w) /\
  (forall self token_id,
     config (snd (NFTContract.owner_of net self token_id w)) = config w) /\
  (forall v,
     fst (set_private_key v w) = Ok tt /\
     private_key (config (snd (set_private_key v w))) = v).
Proof.
  repeat split; intros.
  - apply deploy_contract_config.
  - apply query_contract_config.
  - apply execute_transaction_config.
  - exact (call_raised_config net (Receipt h) w).
  - exact (call_raised_config net (Balance a) w).
  - exact (call_raised_config net (EstimateGas a m args) w).
  - unfold TokenContract.deploy. rewrite bind_ret_snd. apply deploy_contract_config.
  - unfold TokenContract.balance_of.
    destruct (truthy (TokenContract.contract_address self)); cbn [negb];
      [rewrite bind_ret_snd; apply query_contract_config | reflexivity].
  - unfold TokenContract.transfer.
    destruct (truthy (TokenContract.contract_address self)); cbn [negb];
      [apply execute_transaction_config | reflexivity].
  - unfold TokenContract.approve.
    destruct (truthy (TokenContract.contract_address self)); cbn [negb];
      [apply execute_transaction_config | reflexivity].
  - unfold NFTContract.deploy. rewrite bind_ret_snd. apply deploy_contract_config.
  - unfold NFTContract.mint.
    destruct (truthy (NFTContract.contract_address self)); cbn [negb];
      [apply execute_transaction_config | reflexivity].
  - unfold NFTContract.owner_of.
    destruct (truthy (NFTContract.contract_address self)); cbn [negb];
      [rewrite bind_ret_snd; apply query_contract_config | reflexivity].
Qed.

(** C8, as stated, fails: the record can be changed once built.  A
    client built without a key refuses to transact; after the caller
    assigns [private_key] on the same configuration object, the same
    call goes out, signed with the new key. *)
Lemma config_can_be_reassigned :
  fst (set_private_key (Some "k") keyless_world) = Ok tt /\
  config (snd (set_private_key (Some "k") keyless_world)) <> config keyless_world /\
  execute_transaction (always_replies execute_reply) (PyStr "0xabc") "transfer"
    (Some [PyStr "0xuser"; PyStr "100"]) "0" keyless_world =
    (Raise (runtime_error "Private key required for transactions"), keyless_world) /\
  execute_transaction (always_replies execute_reply) (PyStr "0xabc") "transfer"
    (Some [PyStr "0xuser"; PyStr "100"]) "0"
    (snd (set_private_key (Some "k") keyless_world)) =
    (Ok (mkTransactionResult (PyStr "0x2") (PyInt 11) (PyInt 21000) true),
     log_request (snd (set_private_key (Some "k") keyless_world))
       (execute_request (snd (set_private_key (Some "k") keyless_world))
          (PyStr "0xabc") "transfer" (Some [PyStr "0xuser"; PyStr "100"]) "0")) /\
  dict_get
    (match req_json (execute_request (snd (set_private_key (Some "k") keyless_world))
                       (PyStr "0xabc") "transfer"
                       (Some [PyStr "0xuser"; PyStr "100"]) "0") with
     | Some (PyDict items) => items
     | _ => []
     end) "privateKey" = Some (PyStr "k").
Proof.
  split; [reflexivity |]. split; [discriminate |].
  split; [reflexivity |]. split; reflexivity.
Qed.

(** ** Outcome of a raising call, in full *)

Section Outcomes.

Variable net : Transport.

(** A raising call stops at its precondition or goes out once. *)
Lemma call_raised_world c w :
  snd (call_raised net c w) =
  if call_ready c w then log_request w (call_request c w) else w.
Proof.
  destruct (call_ready c w) eqn:Hk.
  - destruct (failure (call_fields c) (net (sent w) (call_request c w)))
      as [e |] eqn:Hf.
    + destruct c; cbn [call_ready call_fields call_request call_raised] in *;
        unfold raised.
      * now rewrite (deploy_contract_failure net _ _ _ _ Hf).
      * now rewrite (execute_transaction_failure net _ _ _ _ _ _ Hk Hf).
      * now rewrite (get_transaction_receipt_failure net _ _ _ Hf).
      * now rewrite (get_balance_failure net _ _ _ Hf).
      * now rewrite (estimate_gas_failure net _ _ _ _ _ Hf).
    + now rewrite (call_returns net c w Hk Hf).
  - destruct c; cbn [call_ready] in Hk; try discriminate.
    cbn [call_raised]. now rewrite (execute_transaction_unsigned net _ _ _ _ _ Hk).
Qed.

(** The exception a raising call ends with, if any. *)
Lemma call_raised_exn c w :
  fst (call_raised net c w) =
  if call_ready c w then
    option_map (fun e => runtime_error (call_prefix c ++ exn_text e))
      (failure (call_fields c) (net (sent w) (call_request c w)))
  else Some (runtime_error "Private key required for transactions").
Proof.
  destruct (call_ready c w) eqn:Hk.
  - destruct (failure (call_fields c) (net (sent w) (call_request c w)))
      as [e |] eqn:Hf; cbn [option_map].
    + destruct c; cbn [call_ready call_fields call_request call_raised call_prefix] in *;
        unfold raised.
      * now rewrite (deploy_contract_failure net _ _ _ _ Hf).
      * now rewrite (execute_transaction_failure net _ _ _ _ _ _ Hk Hf).
      * now rewrite (get_transaction_receipt_failure net _ _ _ Hf).
      * now rewrite (get_balance_failure net _ _ _ Hf).
      * now rewrite (estimate_gas_failure net _ _ _ _ _ Hf).
    + now rewrite (call_returns net c w Hk Hf).
  - destruct c; cbn [call_ready] in Hk; try discriminate.
    cbn [call_raised]. unfold raised.
    now rewrite (execute_transaction_unsigned net _ _ _ _ _ Hk).
Qed.

Lemma perform_step c w :
  perform net c w =
  if reaches_wire w c then log_request w (request_of c w) else w.
Proof.
  destruct c as [c | a m args]; cbn [perform reaches_wire request_of].
  - apply call_raised_world.
  - apply query_contract_sends.
Qed.

Lemma perform_config c w : config (perform net c w) = config w.
Proof.
  rewrite perform_step. now destruct (reaches_wire w c).
Qed.


Lemma reaches_wire_config c w w' :
  config w' = config w -> reaches_wire w' c = reaches_wire w c.
Proof.
  intros H. destruct c as [[] |]; cbn; now rewrite ?H.
Qed.


Lemma perform_all_config calls w : config (perform_all net calls w) = config w.
Proof.
  revert w. induction calls as [| c calls IH]; intros w; cbn; [reflexivity |].
  unfold perform_all in IH. now rewrite IH, perform_config.
Qed.


End Outcomes.

(** ** Sequences of calls *)

(** X1.  No retries and no silent drops: over any sequence of client
    calls the log only grows at its end, by exactly one request for each
    call that passes its local precondition (every call but an
    [execute_transaction] without a key), whatever the transport
    does. *)
Theorem calls_send_one_request_each (net : Transport) (calls : list ClientCall)
    (w : World) :
  exists rs,
    sent (perform_all net calls w) = (sent w ++ rs)%list /\
    length rs = length (filter (reaches_wire w) calls).
Proof.
  revert w. induction calls as [| c calls IH]; intros w.
  - exists []. cbn. now rewrite app_nil_r.
  - cbn [perform_all fold_left]. fold (perform_all net calls (perform net c w)).
    destruct (IH (perform net c w)) as (rs & Hrs & Hlen).
    assert (Hsame : filter (reaches_wire (perform net c w)) calls =
                    filter (reaches_wire w) calls).
    { apply filter_ext. intros c'. apply reaches_wire_config, perform_config. }
    rewrite Hsame in Hlen. rewrite Hrs, perform_step. cbn [filter].
    destruct (reaches_wire w c).
    + exists (request_of c w :: rs). cbn. rewrite <- app_assoc. cbn.
      split; [reflexivity | now rewrite Hlen].
    + exists rs. now split.
Qed.





(** ** Replies and what is made of them *)

Lemma field_failure_first_missing items fields :
  field_failure (PyDict items) fields =
  option_map key_error (first_missing items fields).
Proof.
  induction fields as [| f rest IH]; cbn; [reflexivity |].
  destruct (dict_get items f); [exact IH | reflexivity].
Qed.

Lemma log_request_grows w r : log_request w r <> w.
Proof.
  intros H. apply (f_equal (fun x => length (sent x))) in H.
  cbn in H. rewrite length_app in H. cbn in H.
  apply (f_equal Z.of_nat) in H. rewrite Nat2Z.inj_add in H. cbn in H.
  revert H. generalize (Z.of_nat (length (sent w))). intros z Hz.
  assert (Hc : (z + 1 ?= z) = Gt) by (apply Z.compare_gt_iff, Z.lt_succ_diag_r).
  rewrite Hz, Z.compare_refl in Hc. discriminate Hc.
Qed.

(** X3.  When the reply is a JSON object that lacks an expected field,
    a raising call reports the first field it failed to read, in the
    order it reads them, by name between single quotes after its
    prefix. *)
Theorem missing_field_is_named (net : Transport) (c : RaisingCall) (w : World)
    (items : list (string * PyVal)) (f : string) :
  call_ready c w = true ->
  reply_body (net (sent w) (call_request c w)) = Some (PyDict items) ->
  first_missing items (call_fields c) = Some f ->
  fst (call_raised net c w) =
    Some (runtime_error (call_prefix c ++ sq ++ f ++ sq)).
Proof.
  intros Hk Hr Hm.
  rewrite call_raised_exn, Hk.
  rewrite (reply_body_failure _ _ _ Hr), field_failure_first_missing, Hm.
  reflexivity.
Qed.

Lemma missing_field_is_named_witness :
  call_ready (Deploy "contract C {}" None) keyless_world = true /\
  reply_body (always_replies (PyDict [("contractAddress", PyStr "0xabc")])
    (sent keyless_world) (call_request (Deploy "contract C {}" None) keyless_world)) =
    Some (PyDict [("contractAddress", PyStr "0xabc")]) /\
  first_missing [("contractAddress", PyStr "0xabc")]
    (call_fields (Deploy "contract C {}" None)) = Some "txHash" /\
  fst (call_raised (always_replies (PyDict [("contractAddress", PyStr "0xabc")]))
         (Deploy "contract C {}" None) keyless_world) =
    Some (runtime_error "Contract deployment failed: 'txHash'").
Proof.
  split; [reflexivity |]. split; [reflexivity |]. split; [reflexivity |].
  apply (missing_field_is_named
           (always_replies (PyDict [("contractAddress", PyStr "0xabc")]))
           (Deploy "contract C {}" None) keyless_world
           [("contractAddress", PyStr "0xabc")] "txHash");
    reflexivity.
Defined.

(** X4.  A raising call returns normally exactly when its local
    precondition holds and the round trip goes through: the transport
    answers, the status check passes, the body decodes and every
    expected field can be read. *)
Theorem raising_call_returns_iff (net : Transport) (c : RaisingCall) (w : World) :
  fst (call_raised net c w) = None <->
  call_ready c w = true /\
  failure (call_fields c) (net (sent w) (call_request c w)) = None.
Proof.
  rewrite call_raised_exn. split.
  - destruct (call_ready c w); [| discriminate].
    destruct (failure (call_fields c) (net (sent w) (call_request c w)));
      [discriminate | auto].
  - intros [-> ->]. reflexivity.
Qed.

Lemma raising_call_returns_iff_witness :
  call_ready (EstimateGas (PyStr "0xabc") "transfer" None) keyless_world = true /\
  failure (call_fields (EstimateGas (PyStr "0xabc") "transfer" None))
    (always_replies (PyDict [("gasEstimate", PyInt 21000)]) (sent keyless_world)
       (call_request (EstimateGas (PyStr "0xabc") "transfer" None) keyless_world)) =
    None /\
  fst (call_raised (always_replies (PyDict [("gasEstimate", PyInt 21000)]))
         (EstimateGas (PyStr "0xabc") "transfer" None) keyless_world) = None.
Proof.
  split; [reflexivity |]. split; [reflexivity |].
  apply (proj2 (raising_call_returns_iff
                  (always_replies (PyDict [("gasEstimate", PyInt 21000)]))
                  (EstimateGas (PyStr "0xabc") "transfer" None) keyless_world)).
  split; reflexivity.
Defined.


(** X5.  [get_transaction_receipt] hands back the decoded body whole
    and unexamined: it returns [d] exactly when the reply passed the
    status check and decoded to [d], whatever kind of JSON value [d]
    is. *)
Theorem receipt_is_the_decoded_body (net : Transport) (h : string)
    (w w' : World) (d : PyVal) :
  get_transaction_receipt net h w = (Ok d, w') <->
  reply_body (net (sent w) (receipt_request w h)) = Some d /\
  w' = log_request w (receipt_request w h).
Proof.
  split.
  - intros H.
    destruct (failure [] (net (sent w) (receipt_request w h))) as [e |] eqn:Hf.
    + rewrite (get_transaction_receipt_failure net _ _ _ Hf) in H. discriminate H.
    + destruct (failure_none _ _ Hf) as (d' & Hd & _).
      rewrite (get_transaction_receipt_reply net _ _ _ Hd) in H.
      injection H as -> <-. auto.
  - intros [Hd ->]. now apply get_transaction_receipt_reply.
Qed.

Lemma receipt_is_the_decoded_body_witness :
  reply_body (always_replies (PyList [PyStr "log"]) (sent keyless_world)
    (receipt_request keyless_world "0x1")) = Some (PyList [PyStr "log"]) /\
  get_transaction_receipt (always_replies (PyList [PyStr "log"])) "0x1" keyless_world =
    (Ok (PyList [PyStr "log"]),
     log_request keyless_world (receipt_request keyless_world "0x1")).
Proof.
  split; [reflexivity |].
  apply (proj2 (receipt_is_the_decoded_body (always_replies (PyList [PyStr "log"]))
                  "0x1" keyless_world
                  (log_request keyless_world (receipt_request keyless_world "0x1"))
                  (PyList [PyStr "log"]))).
  split; reflexivity.
Defined.


(** X6.  [get_balance] and [estimate_gas] return the [balance] and
    [gasEstimate] entry of the reply as it is, of whatever JSON type:
    each returns [v] exactly when the reply decoded to a body whose
    entry reads [v]. *)
Theorem balance_and_gas_are_reply_entries (net : Transport) (w w' : World)
    (v : PyVal) :
  (forall address,
     get_balance net address w = (Ok v, w') <->
     (exists d,
        reply_body (net (sent w) (balance_request w address)) = Some d /\
        getitem d "balance" = inr v) /\
     w' = log_request w (balance_request w address)) /\
  (forall a m args,
     estimate_gas net a m args w = (Ok v, w') <->
     (exists d,
        reply_body (net (sent w) (estimate_request w a m args)) = Some d /\
        getitem d "gasEstimate" = inr v) /\
     w' = log_request w (estimate_request w a m args)).
Proof.
  split.
  - intros address. split.
    + intros H.
      destruct (failure ["balance"] (net (sent w) (balance_request w address)))
        as [e |] eqn:Hf.
      * rewrite (get_balance_failure net _ _ _ Hf) in H. discriminate H.
      * destruct (failure_none _ _ Hf) as (d & Hd & Hfield).
        cbn in Hfield.
        destruct (getitem d "balance") as [e | b] eqn:Hb; [discriminate |].
        rewrite (get_balance_reply net _ _ _ _ Hd Hb) in H.
        injection H as -> <-. split; [now exists d | reflexivity].
    + intros [(d & Hd & Hb) ->]. now apply get_balance_reply with (d := d).
  - intros a m args. split.
    + intros H.
      destruct (failure ["gasEstimate"] (net (sent w) (estimate_request w a m args)))
        as [e |] eqn:Hf.
      * rewrite (estimate_gas_failure net _ _ _ _ _ Hf) in H. discriminate H.
      * destruct (failure_none _ _ Hf) as (d & Hd & Hfield).
        cbn in Hfield.
        destruct (getitem d "gasEstimate") as [e | g] eqn:Hg; [discriminate |].
        rewrite (estimate_gas_reply net _ _ _ _ _ _ Hd Hg) in H.
        injection H as -> <-. split; [now exists d | reflexivity].
    + intros [(d & Hd & Hg) ->]. now apply estimate_gas_reply with (d := d).
Qed.

Lemma balance_and_gas_are_reply_entries_witness :
  reply_body (always_replies (PyDict [("balance", PyInt 5)]) (sent keyless_world)
    (balance_request keyless_world "0xuser")) = Some (PyDict [("balance", PyInt 5)]) /\
  getitem (PyDict [("balance", PyInt 5)]) "balance" = inr (PyInt 5) /\
  get_balance (always_replies (PyDict [("balance", PyInt 5)])) "0xuser" keyless_world =
    (Ok (PyInt 5), log_request keyless_world (balance_request keyless_world "0xuser")).
Proof.
  split; [reflexivity |]. split; [reflexivity |].
  apply (proj2 (proj1 (balance_and_gas_are_reply_entries
                         (always_replies (PyDict [("balance", PyInt 5)]))
                         keyless_world
                         (log_request keyless_world
                            (balance_request keyless_world "0xuser"))
                         (PyInt 5)) "0xuser")).
  split; [| reflexivity].
  exists (PyDict [("balance", PyInt 5)]). split; reflexivity.
Defined.


(** X7.  Only [execute_transaction] checks for a signing key.
    [deploy_contract] always puts its request on the wire, with the
    configured key as [privateKey], and a null there when none is
    configured. *)
Theorem deploy_has_no_key_check (net : Transport) (code : string)
    (args : option (list PyVal)) (w : World) :
  snd (deploy_contract net code args w) = log_request w (deploy_request w code args) /\
  key_entry (deploy_request w code args) = Some (of_optional (private_key (config w))).
Proof.
  split; [| reflexivity].
  exact (call_raised_world net (Deploy code args) w).
Qed.

(** X8.  The signing key leaves the process only in deploy and execute
    requests: the request a call sends has a [privateKey] entry, holding
    the configured key, when the call is a deployment or a transaction,
    and no such entry when it is a query, a gas estimate, a balance or a
    receipt lookup. *)
Theorem key_is_sent_only_when_signing (net : Transport) (c : ClientCall)
    (w : World) (r : Request) :
  sent (perform net c w) = (sent w ++ [r])%list ->
  key_entry r =
    if signs c then Some (of_optional (private_key (config w))) else None.
Proof.
  rewrite perform_step. destruct (reaches_wire w c).
  - cbn. intros H. apply app_inv_head in H. injection H as <-.
    now destruct c as [[] |].
  - intros H. exfalso.
    apply (f_equal (@length Request)) in H. rewrite length_app in H. cbn in H.
    rewrite Nat.add_comm in H. now apply n_Sn in H.
Qed.

Lemma key_is_sent_only_when_signing_witness :
  sent (perform (always_replies query_reply) (Query (PyStr "0xabc") "balanceOf" None)
          signing_world) =
    (sent signing_world ++
     [query_request signing_world (PyStr "0xabc") "balanceOf" None])%list /\
  key_entry (query_request signing_world (PyStr "0xabc") "balanceOf" None) = None.
Proof.
  split; [reflexivity |].
  apply (key_is_sent_only_when_signing (always_replies query_reply)
           (Query (PyStr "0xabc") "balanceOf" None) signing_world).
  reflexivity.
Defined.

(** X9.  The key check of [execute_transaction] is a truthiness test:
    the call stops before the network with "Private key required for
    transactions" exactly when the key is absent or the empty string. *)
Theorem execute_key_check_is_truthiness (net : Transport) (a : PyVal) (m : string)
    (args : option (list PyVal)) (v : string) (w : World) :
  execute_transaction net a m args v w =
    (Raise (runtime_error "Private key required for transactions"), w) <->
  private_key (config w) = None \/ private_key (config w) = Some EmptyString.
Proof.
  split.
  - intros H.
    destruct (private_key (config w)) as [[| ch k] |] eqn:Hp; auto.
    exfalso.
    assert (Hk : truthy (of_optional (private_key (config w))) = true)
      by now rewrite Hp.
    pose proof (call_raised_world net (Execute a m args v) w) as Hw.
    cbn [call_raised call_ready call_request snd] in Hw.
    rewrite Hk, H in Hw. cbn in Hw. symmetry in Hw.
    exact (log_request_grows _ _ Hw).
  - intros H. apply execute_transaction_unsigned.
    now destruct H as [-> | ->].
Qed.

Lemma execute_key_check_is_truthiness_witness :
  private_key (mkAgefixConfig "https://rpc.agefix.com" "agefix-mainnet-1"
                 (Some EmptyString)) = Some EmptyString /\
  execute_transaction (always_replies execute_reply) (PyStr "0xabc") "transfer"
    (Some [PyStr "0xuser"; PyStr "100"]) "0"
    (AgefixClient_init sample_default_headers
       (mkAgefixConfig "https://rpc.agefix.com" "agefix-mainnet-1" (Some EmptyString))) =
    (Raise (runtime_error "Private key required for transactions"),
     AgefixClient_init sample_default_headers
       (mkAgefixConfig "https://rpc.agefix.com" "agefix-mainnet-1" (Some EmptyString))).
Proof.
  split; [reflexivity |].
  apply (proj2 (execute_key_check_is_truthiness (always_replies execute_reply)
                  (PyStr "0xabc") "transfer" (Some [PyStr "0xuser"; PyStr "100"]) "0"
                  (AgefixClient_init sample_default_headers
                     (mkAgefixConfig "https://rpc.agefix.com" "agefix-mainnet-1"
                        (Some EmptyString))))).
  right. reflexivity.
Defined.


(** X10.  A query succeeds exactly when the reply is a JSON object with
    a [result] entry, and its data is then that entry, null included; a
    body of any other shape is a failure. *)
Theorem query_succeeds_iff_result_entry (net : Transport) (a : PyVal) (m : string)
    (args : option (list PyVal)) (w w' : World) (q : QueryResult) :
  query_contract net a m args w = (Ok q, w') ->
  (success q = true <->
   exists items,
     reply_body (net (sent w) (query_request w a m args)) = Some (PyDict items) /\
     dict_get items "result" = Some (data q)).
Proof.
  intros H.
  destruct (failure ["result"] (net (sent w) (query_request w a m args)))
    as [e |] eqn:Hf.
  - rewrite (query_contract_failure net _ _ _ _ _ Hf) in H.
    injection H as <- _. cbn. split; [discriminate |].
    intros (items & Hr & Hg). exfalso.
    rewrite (reply_body_failure _ _ _ Hr) in Hf. cbn in Hf.
    rewrite Hg in Hf. discriminate Hf.
  - destruct (failure_none _ _ Hf) as (d & Hd & Hfield).
    cbn in Hfield.
    destruct (getitem d "result") as [e | r] eqn:Hg; [discriminate |].
    rewrite (query_contract_reply net _ _ _ _ _ _ Hd Hg) in H.
    injection H as <- _. cbn. split; [intros _ | reflexivity].
    destruct d as [| | | | | items]; try discriminate Hg.
    exists items. split; [exact Hd |].
    cbn in Hg. destruct (dict_get items "result"); [| discriminate Hg].
    now injection Hg as ->.
Qed.

Lemma query_succeeds_iff_result_entry_witness :
  query_contract (always_replies (PyDict [("result", PyNone)])) (PyStr "0xabc")
    "ownerOf" (Some [PyInt 7]) keyless_world =
    (Ok (mkQueryResult true PyNone None),
     log_request keyless_world
       (query_request keyless_world (PyStr "0xabc") "ownerOf" (Some [PyInt 7]))) /\
  (success (mkQueryResult true PyNone None) = true <->
   exists items,
     reply_body (always_replies (PyDict [("result", PyNone)]) (sent keyless_world)
       (query_request keyless_world (PyStr "0xabc") "ownerOf" (Some [PyInt 7]))) =
       Some (PyDict items) /\
     dict_get items "result" = Some (data (mkQueryResult true PyNone None))).
Proof.
  split; [reflexivity |].
  apply (query_succeeds_iff_result_entry (always_replies (PyDict [("result", PyNone)]))
           (PyStr "0xabc") "ownerOf" (Some [PyInt 7]) keyless_world
           (log_request keyless_world
              (query_request keyless_world (PyStr "0xabc") "ownerOf" (Some [PyInt 7])))
           (mkQueryResult true PyNone None)).
  reflexivity.
Defined.

(** ** Helpers after a deployment *)

Lemma string_app_assoc (a b c : string) : (a ++ b) ++ c = a ++ (b ++ c).
Proof.
  induction a as [| ch a IH]; cbn; [reflexivity | now rewrite IH].
Qed.

(** X11.  [NFTContract.deploy] stores whatever value the reply gives as
    [contractAddress], unvalidated.  If that value is truthy, [mint] and
    [owner_of] are from then on the client calls on it and aim their
    requests at it; if it is falsy (null, the empty string), the
    deployment has succeeded and yet both methods raise "Contract not
    deployed". *)
Theorem nft_deploy_propagates_address (net : Transport) (self : NFTContract.t)
    (name symbol : string) (w : World) (d a h b : PyVal) :
  reply_body (net (sent w)
    (deploy_request w (NFTContract.nft_code name symbol) None)) = Some d ->
  getitem d "contractAddress" = inr a ->
  getitem d "txHash" = inr h ->
  getitem d "blockNumber" = inr b ->
  exists self',
    NFTContract.deploy net self name symbol w =
      (Ok (mkContractDeployment a h b, self'),
       log_request w (deploy_request w (NFTContract.nft_code name symbol) None)) /\
    NFTContract.contract_address self' = a /\
    (truthy a = true ->
     (forall to uri w1,
        NFTContract.mint net self' to uri w1 =
          execute_transaction net a "mint" (Some [PyStr to; PyStr uri]) "0" w1 /\
        aimed_at a w1 (snd (NFTContract.mint net self' to uri w1))) /\
     (forall token_id w1,
        NFTContract.owner_of net self' token_id w1 =
          (q <- query_contract net a "ownerOf" (Some [PyInt token_id]) ;;
           ret (data q)) w1 /\
        aimed_at a w1 (snd (NFTContract.owner_of net self' token_id w1)))) /\
    (truthy a = false ->
     (forall to uri w1,
        NFTContract.mint net self' to uri w1 =
          (Raise (runtime_error "Contract not deployed"), w1)) /\
     (forall token_id w1,
        NFTContract.owner_of net self' token_id w1 =
          (Raise (runtime_error "Contract not deployed"), w1))).
Proof.
  intros H Ha Hh Hb. exists (NFTContract.mk a).
  split; [now apply nft_deploy_stores with (d := d) |].
  split; [reflexivity |]. split; intros Ht.
  - split; intros.
    + rewrite (nft_mint_delegates net (NFTContract.mk a) to uri Ht).
      cbn [NFTContract.contract_address].
      split; [reflexivity | apply execute_transaction_aimed].
    + rewrite (nft_owner_of_delegates net (NFTContract.mk a) token_id Ht).
      cbn [NFTContract.contract_address].
      split; [reflexivity |]. rewrite bind_ret_snd. apply query_contract_aimed.
  - split; intros.
    + unfold NFTContract.mint. cbn [NFTContract.contract_address]. now rewrite Ht.
    + unfold NFTContract.owner_of. cbn [NFTContract.contract_address]. now rewrite Ht.
Qed.

Lemma nft_deploy_propagates_address_witness :
  exists self',
    NFTContract.deploy
      (always_replies
         (PyDict [("contractAddress", PyStr EmptyString);
                  ("txHash", PyStr "0x1"); ("blockNumber", PyInt 10)]))
      (NFTContract.init None) "MyNFT" "MNFT" keyless_world =
      (Ok (mkContractDeployment (PyStr EmptyString) (PyStr "0x1") (PyInt 10), self'),
       log_request keyless_world
         (deploy_request keyless_world (NFTContract.nft_code "MyNFT" "MNFT") None)) /\
    NFTContract.mint
      (always_replies
         (PyDict [("contractAddress", PyStr EmptyString);
                  ("txHash", PyStr "0x1"); ("blockNumber", PyInt 10)]))
      self' "0xuser" "ipfs://metadata-uri"
      (log_request keyless_world
         (deploy_request keyless_world (NFTContract.nft_code "MyNFT" "MNFT") None)) =
      (Raise (runtime_error "Contract not deployed"),
       log_request keyless_world
         (deploy_request keyless_world (NFTContract.nft_code "MyNFT" "MNFT") None)).
Proof.
  destruct (nft_deploy_propagates_address
              (always_replies
                 (PyDict [("contractAddress", PyStr EmptyString);
                          ("txHash", PyStr "0x1"); ("blockNumber", PyInt 10)]))
              (NFTContract.init None) "MyNFT" "MNFT" keyless_world
              (PyDict [("contractAddress", PyStr EmptyString);
                       ("txHash", PyStr "0x1"); ("blockNumber", PyInt 10)])
              (PyStr EmptyString) (PyStr "0x1") (PyInt 10)
              eq_refl eq_refl eq_refl eq_refl)
    as (self' & Hrun & _ & _ & Hfalsy).
  exists self'. split; [exact Hrun |].
  apply (proj1 (Hfalsy eq_refl)).
Defined.

(** X12.  The usage shown in the [TokenContract] docstring, a
    deployment followed by a transfer on the same helper, sends exactly
    two requests: the deployment, then a transfer aimed at the address
    the first reply gave, answered by the transport with the deployment
    already in its history; the script returns the transaction result
    built from the second reply. *)
Theorem deploy_then_transfer (net : Transport) (self : TokenContract.t)
    (name symbol total_supply to amount : string) (w : World)
    (d a h b e th tb tg : PyVal) :
  let dreq := deploy_request w (TokenContract.token_code name symbol total_supply) None in
  let ereq := execute_request (log_request w dreq) a "transfer"
                (Some [PyStr to; PyStr amount]) "0" in
  truthy (of_optional (private_key (config w))) = true ->
  reply_body (net (sent w) dreq) = Some d ->
  getitem d "contractAddress" = inr a ->
  getitem d "txHash" = inr h ->
  getitem d "blockNumber" = inr b ->
  truthy a = true ->
  reply_body (net (sent w ++ [dreq])%list ereq) = Some e ->
  getitem e "txHash" = inr th ->
  getitem e "blockNumber" = inr tb ->
  getitem e "gasUsed" = inr tg ->
  (r <- TokenContract.deploy net self name symbol total_supply ;;
   TokenContract.transfer net (snd r) to amount) w =
    (Ok (mkTransactionResult th tb tg true), log_request (log_request w dreq) ereq) /\
  sent (log_request (log_request w dreq) ereq) = (sent w ++ [dreq; ereq])%list /\
  target ereq = Some a.
Proof.
  intros dreq ereq Hk Hd Ha Hh Hb Ht He Hth Htb Htg.
  split; [| split; [cbn; now rewrite <- app_assoc | reflexivity]].
  unfold bind at 1.
  rewrite (token_deploy_stores net self _ _ _ _ _ _ _ _ Hd Ha Hh Hb).
  cbn [snd].
  rewrite (token_transfer_delegates net (TokenContract.mk a) to amount Ht).
  cbn [TokenContract.contract_address].
  now apply execute_transaction_reply with (d := e).
Qed.

Lemma deploy_then_transfer_witness :
  (r <- TokenContract.deploy (scripted [deploy_reply; execute_reply])
          (TokenContract.init None) "MyToken" "MTK" "1000000" ;;
   TokenContract.transfer (scripted [deploy_reply; execute_reply]) (snd r)
     "0xuser" "100") signing_world =
    (Ok (mkTransactionResult (PyStr "0x2") (PyInt 11) (PyInt 21000) true),
     log_request
       (log_request signing_world
          (deploy_request signing_world
             (TokenContract.token_code "MyToken" "MTK" "1000000") None))
       (execute_request
          (log_request signing_world
             (deploy_request signing_world
                (TokenContract.token_code "MyToken" "MTK" "1000000") None))
          (PyStr "0xabc") "transfer" (Some [PyStr "0xuser"; PyStr "100"]) "0")).
Proof.
  apply (deploy_then_transfer (scripted [deploy_reply; execute_reply])
           (TokenContract.init None) "MyToken" "MTK" "1000000" "0xuser" "100"
           signing_world deploy_reply (PyStr "0xabc") (PyStr "0x1") (PyInt 10)
           execute_reply (PyStr "0x2") (PyInt 11) (PyInt 21000));
    reflexivity.
Defined.

(** X13.  When the deployment fails, a script that goes on to use the
    helper stops there: the deployment's [RuntimeError] comes out, only
    the deployment request has been sent, and the method that was to
    follow is never run. *)
Theorem failed_deploy_stops_the_script (net : Transport) (self : TokenContract.t)
    (name symbol total_supply : string) (w : World) (e : Exn) (A : Type)
    (next : ContractDeployment * TokenContract.t -> M A) :
  failure ["contractAddress"; "txHash"; "blockNumber"]
    (net (sent w)
       (deploy_request w (TokenContract.token_code name symbol total_supply) None)) =
    Some e ->
  (r <- TokenContract.deploy net self name symbol total_supply ;; next r) w =
    (Raise (runtime_error ("Contract deployment failed: " ++ exn_text e)),
     log_request w
       (deploy_request w (TokenContract.token_code name symbol total_supply) None)).
Proof.
  intros Hf. unfold bind at 1. unfold TokenContract.deploy, bind at 1.
  now rewrite (deploy_contract_failure net _ _ _ _ Hf).
Qed.

Lemma failed_deploy_stops_the_script_witness :
  (r <- TokenContract.deploy (scripted []) (TokenContract.init None)
          "MyToken" "MTK" "1000000" ;;
   TokenContract.transfer (scripted []) (snd r) "0xuser" "100") signing_world =
    (Raise (runtime_error "Contract deployment failed: no reply scripted"),
     log_request signing_world
       (deploy_request signing_world
          (TokenContract.token_code "MyToken" "MTK" "1000000") None)).
Proof.
  apply (failed_deploy_stops_the_script (scripted []) (TokenContract.init None)
           "MyToken" "MTK" "1000000" signing_world
           (mkExn (OtherException "ConnectionError") "no reply scripted")
           TransactionResult
           (fun r => TokenContract.transfer (scripted []) (snd r) "0xuser" "100")).
  reflexivity.
Defined.

(** X14.  The read helpers can only fail locally: [balance_of] and
    [owner_of] raise nothing but "Contract not deployed", only on a
    falsy address, and then nothing has been sent; with an address in
    place no transport failure makes them raise. *)
Theorem query_helpers_raise_only_locally (net : Transport) (w w' : World) (x : Exn) :
  (forall self address,
     TokenContract.balance_of net self address w = (Raise x, w') ->
     x = runtime_error "Contract not deployed" /\ w' = w /\
     truthy (TokenContract.contract_address self) = false) /\
  (forall self token_id,
     NFTContract.owner_of net self token_id w = (Raise x, w') ->
     x = runtime_error "Contract not deployed" /\ w' = w /\
     truthy (NFTContract.contract_address self) = false).
Proof.
  split.
  - intros self address. unfold TokenContract.balance_of.
    destruct (truthy (TokenContract.contract_address self)); cbn [negb].
    + unfold bind, ret.
      pose proof (query_contract_sends net (TokenContract.contract_address self)
                    "balanceOf" (Some [PyStr address]) w) as Hs.
      destruct (failure ["result"]
                  (net (sent w)
                     (query_request w (TokenContract.contract_address self)
                        "balanceOf" (Some [PyStr address])))) as [e |] eqn:Hf.
      * rewrite (query_contract_failure net _ _ _ _ _ Hf). discriminate.
      * destruct (failure_none _ _ Hf) as (d & Hd & Hfield). cbn in Hfield.
        destruct (getitem d "result") as [e | r] eqn:Hg; [discriminate |].
        rewrite (query_contract_reply net _ _ _ _ _ _ Hd Hg). discriminate.
    + unfold raise. intros [= <- <-]. auto.
  - intros self token_id. unfold NFTContract.owner_of.
    destruct (truthy (NFTContract.contract_address self)); cbn [negb].
    + unfold bind, ret.
      destruct (failure ["result"]
                  (net (sent w)
                     (query_request w (NFTContract.contract_address self)
                        "ownerOf" (Some [PyInt token_id])))) as [e |] eqn:Hf.
      * rewrite (query_contract_failure net _ _ _ _ _ Hf). discriminate.
      * destruct (failure_none _ _ Hf) as (d & Hd & Hfield). cbn in Hfield.
        destruct (getitem d "result") as [e | r] eqn:Hg; [discriminate |].
        rewrite (query_contract_reply net _ _ _ _ _ _ Hd Hg). discriminate.
    + unfold raise. intros [= <- <-]. auto.
Qed.

Lemma query_helpers_raise_only_locally_witness :
  TokenContract.balance_of (always_replies query_reply) (TokenContract.init None)
    "0xuser" keyless_world =
    (Raise (runtime_error "Contract not deployed"), keyless_world) /\
  truthy (TokenContract.contract_address (TokenContract.init None)) = false.
Proof.
  split; [reflexivity |].
  apply (proj1 (query_helpers_raise_only_locally (always_replies query_reply)
                  keyless_world keyless_world
                  (runtime_error "Contract not deployed"))
           (TokenContract.init None) "0xuser").
  reflexivity.
Defined.

(** X15.  Whatever leaves the contract helpers as an exception is a
    [RuntimeError]: the local guard's, the key check's, or the wrapped
    failure of the round trip, for [deploy], [transfer], [approve] and
    [mint] alike. *)
Theorem helper_exceptions_are_runtime_errors (net : Transport) (w : World) (x : Exn) :
  (forall self name symbol total_supply,
     raised (TokenContract.deploy net self name symbol total_supply w) = Some x ->
     exn_class x = RuntimeError) /\
  (forall self to amount,
     raised (TokenContract.transfer net self to amount w) = Some x ->
     exn_class x = RuntimeError) /\
  (forall self spender amount,
     raised (TokenContract.approve net self spender amount w) = Some x ->
     exn_class x = RuntimeError) /\
  (forall self name symbol,
     raised (NFTContract.deploy net self name symbol w) = Some x ->
     exn_class x = RuntimeError) /\
  (forall self to uri,
     raised (NFTContract.mint net self to uri w) = Some x ->
     exn_class x = RuntimeError).
Proof.
  assert (Hdeploy : forall code, raised (deploy_contract net code None w) = Some x ->
                                 exn_class x = RuntimeError).
  { intros code. exact (call_raised_class net (Deploy code None) w x). }
  assert (Hexec : forall a m args, raised (execute_transaction net a m args "0" w) = Some x ->
                                   exn_class x = RuntimeError).
  { intros a m args. exact (call_raised_class net (Execute a m args "0") w x). }
  repeat split.
  - intros self name symbol total_supply. unfold TokenContract.deploy, raised, bind, ret.
    intros H. apply (Hdeploy (TokenContract.token_code name symbol total_supply)).
    unfold raised. now destruct (deploy_contract net _ None w) as [[dep | e] w'].
  - intros self to amount. unfold TokenContract.transfer.
    destruct (truthy (TokenContract.contract_address self)); cbn [negb];
      [apply Hexec | now intros [= <-]].
  - intros self spender amount. unfold TokenContract.approve.
    destruct (truthy (TokenContract.contract_address self)); cbn [negb];
      [apply Hexec | now intros [= <-]].
  - intros self name symbol. unfold NFTContract.deploy, raised, bind, ret.
    intros H. apply (Hdeploy (NFTContract.nft_code name symbol)).
    unfold raised. now destruct (deploy_contract net _ None w) as [[dep | e] w'].
  - intros self to uri. unfold NFTContract.mint.
    destruct (truthy (NFTContract.contract_address self)); cbn [negb];
      [apply Hexec | now intros [= <-]].
Qed.

Lemma helper_exceptions_are_runtime_errors_witness :
  raised (TokenContract.transfer (always_raises (mkExn (OtherException "Timeout") "timed out"))
            (TokenContract.init (Some "0xabc")) "0xuser" "100" signing_world) =
    Some (runtime_error "Transaction execution failed: timed out") /\
  exn_class (runtime_error "Transaction execution failed: timed out") = RuntimeError.
Proof.
  split; [reflexivity |].
  apply (proj1 (proj2 (helper_exceptions_are_runtime_errors
                         (always_raises (mkExn (OtherException "Timeout") "timed out"))
                         signing_world
                         (runtime_error "Transaction execution failed: timed out")))
           (TokenContract.init (Some "0xabc")) "0xuser" "100").
  reflexivity.
Defined.

(** ** The contract templates *)

Lemma string_length_app (a b : string) :
  String.length (a ++ b) = (String.length a + String.length b)%nat.
Proof.
  induction a as [| ch a IH]; cbn; [reflexivity | now rewrite IH].
Qed.

(** X16.  The templates insert [name] and [symbol] as they are, with no
    escaping: text moved from the end of the name to the start of the
    symbol, across the characters the template puts between the two,
    gives a different name and yet renders the same contract source,
    so a parameter can rewrite the declarations that follow it. *)
Theorem templates_do_not_escape (n s1 s2 total_supply : string) :
  TokenContract.token_code (n ++ name_symbol_gap ++ s1) s2 total_supply =
  TokenContract.token_code n (s1 ++ name_symbol_gap ++ s2) total_supply /\
  NFTContract.nft_code (n ++ name_symbol_gap ++ s1) s2 =
  NFTContract.nft_code n (s1 ++ name_symbol_gap ++ s2) /\
  n ++ name_symbol_gap ++ s1 <> n.
Proof.
  split; [| split].
  - unfold TokenContract.token_code, name_symbol_gap.
    cbn [String.concat]. unfold dq, nl.
    cbn [append]; repeat (rewrite string_app_assoc; cbn [append]); reflexivity.
  - unfold NFTContract.nft_code, name_symbol_gap.
    cbn [String.concat]. unfold dq, nl.
    cbn [append]; repeat (rewrite string_app_assoc; cbn [append]); reflexivity.
  - intros H. apply (f_equal String.length) in H.
    rewrite !string_length_app in H. cbn in H.
    rewrite <- (Nat.add_0_r (String.length n)) in H at 2.
    apply Nat.add_cancel_l in H. discriminate H.
Qed.
